(** * Latency-aware websocket client: window classifier, retry and failover

    A state-passing model of [primary_ws.py] (class [LatencyAwareWebsocket])
    and [healthcheck_ws.py] (class [HealthCheckWebsocket]).  The file
    [primary.ws.py] is an earlier variant of the primary without the probe
    and is not modelled.

    Each Python object is a record of its attributes.  A coroutine is a
    function on the [world] (both objects and the trace of calls made to
    asyncio and to the transport).  What the network answers is an input:
    every operation that may reach [websockets.connect] takes the list of
    outcomes of the connection attempts it will see, and a probe takes the
    outcome of its ping.  An operation stops where the coroutine suspends
    for good: after a successful connect it waits on the listen task, and
    when the list of outcomes is used up the attempt is still in flight.

    The model follows the call chain of one coroutine at a time.  It does
    not interleave the ping and listen tasks, and it does not resume a
    [connect] that is suspended on a listen task when that task is
    cancelled.  Logging is left out. *)

From Stdlib Require Import ZArith List Bool Lia QArith Permutation.
Import ListNotations.
Close Scope Q_scope.
Local Open Scope Z_scope.

(** ** The sliding window

    [handle_new_latency], [slide_window], [is_window_bad] and
    [is_window_good] read and write [self.bandwidth_window] only; the two
    classes share the text of the first two. *)

Module Window.

Definition window := list bool.

(** [len(self.bandwidth_window)] *)
Definition len (w : window) : Z := Z.of_nat (length w).

(** [if self.bandwidth_window: self.bandwidth_window.pop(0)] *)
Definition slide_window (w : window) : window :=
  match w with
  | [] => []
  | _ :: rest => rest
  end.

(** The first three statements of [handle_new_latency]: append, then
    slide when the length exceeds [window_sz]. *)
Definition record (window_sz : Z) (w : window) (res : bool) : window :=
  let w' := w ++ [res] in
  if window_sz <? len w' then slide_window w' else w'.

(** [sum(1 for measurement in window if p(measurement))] *)
Definition count (p : bool -> bool) (w : window) : Z :=
  fold_right Z.add 0 (map (fun _ => 1) (filter p w)).

Definition bad_count (w : window) : Z := count (fun measurement => measurement) w.
Definition good_count (w : window) : Z := count (fun measurement => negb measurement) w.

Definition is_window_bad (window_sz min_bad_count : Z) (w : window) : bool :=
  if len w =? window_sz then min_bad_count <=? bad_count w else false.

Definition is_window_good (window_sz min_good_count : Z) (w : window) : bool :=
  if len w =? window_sz then min_good_count <=? good_count w else false.

(** A run of [record] calls, oldest sample first. *)
Definition record_all (window_sz : Z) (w : window) (samples : list bool) : window :=
  fold_left (record window_sz) samples w.

End Window.

(** ** Inputs from the network *)

(** Outcome of [await asyncio.wait_for(websockets.connect(uri), ...)], by the
    [except] clause of [connect] that receives it. *)
Inductive conn_result :=
| ConnOk
| ConnTimeout
| ConnClosed
| ConnCancelled
| ConnError.

(** Outcome of one ping: the measured latency in milliseconds, a timeout of
    the pong waiter, or any other exception. *)
Inductive probe_result :=
| Pong (latency : Q)
| ProbeTimeout
| ProbeError.

(** ** Objects *)

(** An attribute holding an asyncio task, as the guards of [cleanup_tasks]
    see it: missing or [None], not yet done, or done.  After [cancel()] and
    the [await] on the task the attribute holds a finished task (or [None]
    in the probe, when the await returns normally); both fail the guard,
    and the model writes [Done]. *)
Inductive task := NoTask | Running | Done.

Inductive party := primary_ws | healthcheck_ws.

(** Calls that leave the object. *)
Inductive effect :=
| Connect (p : party)       (* websockets.connect under wait_for *)
| CreateTasks (p : party)   (* create_task(ping_loop()), create_task(listen()) *)
| CancelPing (p : party)    (* ping_task.cancel() and the await on it *)
| CancelListen (p : party)  (* listen_task.cancel() and the await on it *)
| WaitClosed (p : party)    (* wait_for(connection.wait_closed(), timeout=2) *)
| Sleep                     (* asyncio.sleep(connection_timeout) *)
| OnGoodLatency.            (* await self.on_good_latency() *)

Definition effect_eqb (a b : effect) : bool :=
  match a, b with
  | Connect primary_ws, Connect primary_ws
  | Connect healthcheck_ws, Connect healthcheck_ws
  | CreateTasks primary_ws, CreateTasks primary_ws
  | CreateTasks healthcheck_ws, CreateTasks healthcheck_ws
  | CancelPing primary_ws, CancelPing primary_ws
  | CancelPing healthcheck_ws, CancelPing healthcheck_ws
  | CancelListen primary_ws, CancelListen primary_ws
  | CancelListen healthcheck_ws, CancelListen healthcheck_ws
  | WaitClosed primary_ws, WaitClosed primary_ws
  | WaitClosed healthcheck_ws, WaitClosed healthcheck_ws
  | Sleep, Sleep
  | OnGoodLatency, OnGoodLatency => true
  | _, _ => false
  end.

(** Number of occurrences of an effect in a trace. *)
Definition occurrences (e : effect) (tr : list effect) : nat :=
  length (filter (effect_eqb e) tr).

(** Attributes of a [HealthCheckWebsocket]. *)
Module HC.
Record obj := mk {
  good_latency_threshold : Z;
  window_sz : Z;
  min_good_count : Z;
  retry_attempts : Z;
  is_connected : bool;
  bandwidth_window : Window.window;
  attempt_retry : bool;
  connection : bool;        (* a connection object has been assigned *)
  ping_task : task;
  listen_task : task
}.

Definition set_retry_attempts v o :=
  mk (good_latency_threshold o) (window_sz o) (min_good_count o) v
     (is_connected o) (bandwidth_window o) (attempt_retry o) (connection o)
     (ping_task o) (listen_task o).
Definition set_is_connected v o :=
  mk (good_latency_threshold o) (window_sz o) (min_good_count o) (retry_attempts o)
     v (bandwidth_window o) (attempt_retry o) (connection o)
     (ping_task o) (listen_task o).
Definition set_bandwidth_window v o :=
  mk (good_latency_threshold o) (window_sz o) (min_good_count o) (retry_attempts o)
     (is_connected o) v (attempt_retry o) (connection o)
     (ping_task o) (listen_task o).
Definition set_attempt_retry v o :=
  mk (good_latency_threshold o) (window_sz o) (min_good_count o) (retry_attempts o)
     (is_connected o) (bandwidth_window o) v (connection o)
     (ping_task o) (listen_task o).
Definition set_connection v o :=
  mk (good_latency_threshold o) (window_sz o) (min_good_count o) (retry_attempts o)
     (is_connected o) (bandwidth_window o) (attempt_retry o) v
     (ping_task o) (listen_task o).
Definition set_ping_task v o :=
  mk (good_latency_threshold o) (window_sz o) (min_good_count o) (retry_attempts o)
     (is_connected o) (bandwidth_window o) (attempt_retry o) (connection o)
     v (listen_task o).
Definition set_listen_task v o :=
  mk (good_latency_threshold o) (window_sz o) (min_good_count o) (retry_attempts o)
     (is_connected o) (bandwidth_window o) (attempt_retry o) (connection o)
     (ping_task o) v.

(** [__init__] with its default arguments, as the primary calls it. *)
Definition init : obj :=
  mk 200 10 7 0 false [] true false NoTask NoTask.
End HC.

(** Attributes of a [LatencyAwareWebsocket] ([primary_ws.py]).  The
    attribute [healthcheck_socket] is the [probe] of the [world]. *)
Module WS.
Record obj := mk {
  retry_connection : bool;
  max_retry_attempts : Z;
  good_latency_threshold : Z;
  window_sz : Z;
  min_bad_count : Z;
  maintain_healthcheck : bool;
  retry_attempts : Z;
  is_connected : bool;
  bandwidth_window : Window.window;
  connection : bool;        (* self.connection is set and not None *)
  ping_task : task;
  listen_task : task
}.

Definition set_retry_connection v o :=
  mk v (max_retry_attempts o) (good_latency_threshold o) (window_sz o)
     (min_bad_count o) (maintain_healthcheck o) (retry_attempts o)
     (is_connected o) (bandwidth_window o) (connection o)
     (ping_task o) (listen_task o).
Definition set_retry_attempts v o :=
  mk (retry_connection o) (max_retry_attempts o) (good_latency_threshold o) (window_sz o)
     (min_bad_count o) (maintain_healthcheck o) v
     (is_connected o) (bandwidth_window o) (connection o)
     (ping_task o) (listen_task o).
Definition set_is_connected v o :=
  mk (retry_connection o) (max_retry_attempts o) (good_latency_threshold o) (window_sz o)
     (min_bad_count o) (maintain_healthcheck o) (retry_attempts o)
     v (bandwidth_window o) (connection o)
     (ping_task o) (listen_task o).
Definition set_bandwidth_window v o :=
  mk (retry_connection o) (max_retry_attempts o) (good_latency_threshold o) (window_sz o)
     (min_bad_count o) (maintain_healthcheck o) (retry_attempts o)
     (is_connected o) v (connection o)
     (ping_task o) (listen_task o).
Definition set_connection v o :=
  mk (retry_connection o) (max_retry_attempts o) (good_latency_threshold o) (window_sz o)
     (min_bad_count o) (maintain_healthcheck o) (retry_attempts o)
     (is_connected o) (bandwidth_window o) v
     (ping_task o) (listen_task o).
Definition set_ping_task v o :=
  mk (retry_connection o) (max_retry_attempts o) (good_latency_threshold o) (window_sz o)
     (min_bad_count o) (maintain_healthcheck o) (retry_attempts o)
     (is_connected o) (bandwidth_window o) (connection o)
     v (listen_task o).
Definition set_listen_task v o :=
  mk (retry_connection o) (max_retry_attempts o) (good_latency_threshold o) (window_sz o)
     (min_bad_count o) (maintain_healthcheck o) (retry_attempts o)
     (is_connected o) (bandwidth_window o) (connection o)
     (ping_task o) v.

(** [__init__] with its default arguments. *)
Definition init : obj :=
  mk true 3 200 10 7 true 0 false [] false NoTask NoTask.
End WS.

Record world := mkWorld {
  primary : WS.obj;
  probe : HC.obj;
  trace : list effect        (* oldest call first *)
}.

Definition on_primary (f : WS.obj -> WS.obj) (w : world) : world :=
  mkWorld (f (primary w)) (probe w) (trace w).
Definition on_probe (f : HC.obj -> HC.obj) (w : world) : world :=
  mkWorld (primary w) (f (probe w)) (trace w).
Definition emit (e : effect) (w : world) : world :=
  mkWorld (primary w) (probe w) (trace w ++ [e]).

(** [LatencyAwareWebsocket(uri)]: the constructor also builds the probe. *)
Definition init : world := mkWorld WS.init HC.init [].

(** ** [HealthCheckWebsocket] *)

Module HealthCheckWebsocket.

Definition cleanup_tasks (w : world) : world :=
  let w :=
    match HC.ping_task (probe w) with
    | Running => on_probe (HC.set_ping_task Done) (emit (CancelPing healthcheck_ws) w)
    | _ => w
    end in
  match HC.listen_task (probe w) with
  | Running => on_probe (HC.set_listen_task Done) (emit (CancelListen healthcheck_ws) w)
  | _ => w
  end.

Definition close (w : world) : world :=
  if HC.is_connected (probe w)
  then on_probe (HC.set_is_connected false) (emit (WaitClosed healthcheck_ws) w)
  else w.

(** [handle_retry], with the call to [connect] that ends it as [k]. *)
Definition handle_retry_then (k : world -> world) (w : world) : world :=
  if negb (HC.attempt_retry (probe w)) then w
  else
    let w := cleanup_tasks w in
    let w := on_probe (fun o => HC.set_retry_attempts (HC.retry_attempts o + 1) o) w in
    let w := emit Sleep w in
    k w.

Fixpoint connect (outcomes : list conn_result) (w : world) : world :=
  let w := on_probe (HC.set_attempt_retry true) w in
  let w := emit (Connect healthcheck_ws) w in
  match outcomes with
  | [] => w
  | ConnOk :: _ =>
      let w := on_probe (HC.set_connection true) w in
      let w := on_probe (HC.set_retry_attempts 0) w in
      let w := on_probe (HC.set_is_connected true) w in
      let w := on_probe (HC.set_bandwidth_window []) w in
      let w := on_probe (HC.set_ping_task Running) w in
      let w := on_probe (HC.set_listen_task Running) w in
      emit (CreateTasks healthcheck_ws) w
  | _ :: later =>
      let w := on_probe (HC.set_is_connected false) w in
      handle_retry_then (connect later) w
  end.

Definition handle_retry (outcomes : list conn_result) (w : world) : world :=
  handle_retry_then (connect outcomes) w.

(** [listen] when the peer closes the connection:
    [except ConnectionClosed: await self.handle_retry()]. *)
Definition listen_closed (outcomes : list conn_result) (w : world) : world :=
  handle_retry outcomes w.

Definition terminate (w : world) : world :=
  cleanup_tasks (on_probe (HC.set_attempt_retry false) w).

Definition is_window_good (w : world) : bool :=
  Window.is_window_good (HC.window_sz (probe w)) (HC.min_good_count (probe w))
                        (HC.bandwidth_window (probe w)).

(** The append-and-slide part of [handle_new_latency]. *)
Definition record_sample (res : bool) (w : world) : world :=
  on_probe (fun o => HC.set_bandwidth_window
                       (Window.record (HC.window_sz o) (HC.bandwidth_window o) res) o) w.

Definition handle_bad_window (outcomes : list conn_result) (w : world) : world :=
  let w := cleanup_tasks w in
  let w := close w in
  connect outcomes w.

Section Callback.
  (** [self.on_good_latency]: [None], or a coroutine function. *)
Variable on_good_latency : option (list conn_result -> world -> world).

Definition handle_good_window (outcomes : list conn_result) (w : world) : world :=
    match on_good_latency with
    | Some callback => callback outcomes (emit OnGoodLatency w)
    | None => w
    end.

  (** The part of [handle_new_latency] after the sample is stored. *)
Definition evaluate_window (outcomes : list conn_result) (w : world) : world :=
    if Window.len (HC.bandwidth_window (probe w)) =? HC.window_sz (probe w) then
      if is_window_good w
      then handle_good_window outcomes w
      else handle_bad_window outcomes w
    else w.

Definition handle_new_latency (outcomes : list conn_result) (res : bool) (w : world) : world :=
    evaluate_window outcomes (record_sample res w).

Definition ping_pong (outcomes : list conn_result) (r : probe_result) (w : world) : world :=
    if negb (HC.is_connected (probe w)) then w
    else
      match r with
      | Pong latency =>
          handle_new_latency outcomes
            (Qle_bool (inject_Z (HC.good_latency_threshold (probe w))) latency) w
      | ProbeTimeout => handle_new_latency outcomes true w
      | ProbeError => w
      end.
End Callback.

End HealthCheckWebsocket.

(** ** [LatencyAwareWebsocket] *)

Module LatencyAwareWebsocket.

Definition cleanup_tasks (w : world) : world :=
  let w :=
    match WS.ping_task (primary w) with
    | Running => on_primary (WS.set_ping_task Done) (emit (CancelPing primary_ws) w)
    | _ => w
    end in
  match WS.listen_task (primary w) with
  | Running => on_primary (WS.set_listen_task Done) (emit (CancelListen primary_ws) w)
  | _ => w
  end.

(** [handle_retry], with the call to [connect] that ends it as [k]. *)
Definition handle_retry_then (k : world -> world) (w : world) : world :=
  if WS.is_connected (primary w) then w
  else if WS.retry_connection (primary w)
          && (WS.retry_attempts (primary w) <? WS.max_retry_attempts (primary w))
  then
    let w := cleanup_tasks w in
    let w := on_primary (fun o => WS.set_retry_attempts (WS.retry_attempts o + 1) o) w in
    k w
  else w.

Fixpoint connect (outcomes : list conn_result) (w : world) : world :=
  let w := emit (Connect primary_ws) w in
  match outcomes with
  | [] => w
  | ConnOk :: _ =>
      let w := on_primary (WS.set_connection true) w in
      let w := on_primary (WS.set_retry_attempts 0) w in
      let w := on_primary (WS.set_is_connected true) w in
      let w := on_primary (WS.set_ping_task Running) w in
      let w := on_primary (WS.set_listen_task Running) w in
      emit (CreateTasks primary_ws) w
  | _ :: later => handle_retry_then (connect later) w
  end.

Definition handle_retry (outcomes : list conn_result) (w : world) : world :=
  handle_retry_then (connect outcomes) w.

(** [listen] when the peer closes the connection:
    [except ConnectionClosed: await self.handle_retry()]. *)
Definition listen_closed (outcomes : list conn_result) (w : world) : world :=
  handle_retry outcomes w.

Definition close (outcomes : list conn_result) (w : world) : world :=
  let w :=
    if WS.is_connected (primary w) then
      let w := emit (WaitClosed primary_ws) w in
      let w := on_primary (WS.set_is_connected false) w in
      on_primary (WS.set_connection false) w
    else w in
  let w := cleanup_tasks w in
  if WS.maintain_healthcheck (primary w)
  then HealthCheckWebsocket.connect outcomes w
  else w.

Definition is_window_bad (w : world) : bool :=
  Window.is_window_bad (WS.window_sz (primary w)) (WS.min_bad_count (primary w))
                       (WS.bandwidth_window (primary w)).

Definition handle_bad_window (outcomes : list conn_result) (w : world) : world :=
  let w := on_primary (WS.set_retry_connection false) w in
  if WS.is_connected (primary w) then close outcomes w else w.

(** The append-and-slide part of [handle_new_latency]. *)
Definition record_sample (res : bool) (w : world) : world :=
  on_primary (fun o => WS.set_bandwidth_window
                         (Window.record (WS.window_sz o) (WS.bandwidth_window o) res) o) w.

Definition handle_new_latency (outcomes : list conn_result) (res : bool) (w : world) : world :=
  let w := record_sample res w in
  if is_window_bad w then handle_bad_window outcomes w else w.

Definition ping_pong (outcomes : list conn_result) (r : probe_result) (w : world) : world :=
  if negb (WS.is_connected (primary w)) then w
  else
    match r with
    | Pong latency =>
        handle_new_latency outcomes
          (Qle_bool (inject_Z (WS.good_latency_threshold (primary w))) latency) w
    | ProbeTimeout => handle_new_latency outcomes true w
    | ProbeError => w
    end.

(** [while self.is_connected: await self.ping_pong(); await sleep(...)],
    run over the outcomes of the successive pings. *)
Fixpoint ping_loop (outcomes : list conn_result) (pings : list probe_result) (w : world) : world :=
  match pings with
  | [] => w
  | r :: later =>
      if WS.is_connected (primary w)
      then ping_loop outcomes later (ping_pong outcomes r w)
      else w
  end.

Definition refresh_state (w : world) : world :=
  let w := on_primary (WS.set_retry_attempts 0) w in
  let w := on_primary (WS.set_is_connected false) w in
  let w := on_primary (WS.set_retry_connection true) w in
  on_primary (WS.set_bandwidth_window []) w.

Definition on_detect_good_latency (outcomes : list conn_result) (w : world) : world :=
  let w := refresh_state w in
  let w := HealthCheckWebsocket.terminate w in
  connect outcomes w.

End LatencyAwareWebsocket.

(** The probe as the primary builds it: its callback is the primary's
    [on_detect_good_latency]. *)
Definition probe_callback : option (list conn_result -> world -> world) :=
  Some LatencyAwareWebsocket.on_detect_good_latency.


(** ** Scenarios and observations *)

Module P := LatencyAwareWebsocket.
Module H := HealthCheckWebsocket.

(** What [ping_pong] passes to [handle_new_latency] for a ping outcome;
    [None] when it records nothing. *)
Definition sample_of (threshold : Z) (r : probe_result) : option bool :=
  match r with
  | Pong latency => Some (Qle_bool (inject_Z threshold) latency)
  | ProbeTimeout => Some true
  | ProbeError => None
  end.

(** [ping_loop] over samples that are already classified. *)
Fixpoint sample_loop (outcomes : list conn_result) (samples : list bool) (w : world) : world :=
  match samples with
  | [] => w
  | res :: later =>
      if WS.is_connected (primary w)
      then sample_loop outcomes later (P.handle_new_latency outcomes res w)
      else w
  end.

(** The primary after [connect()] succeeded at its first attempt. *)
Definition connected : world := P.connect [ConnOk] init.

(** Seven bad samples followed by three good ones. *)
Definition seven_bad_three_good : list bool := repeat true 7 ++ repeat false 3.

(** The primary of [connected] once [handle_bad_window] has closed it on the
    window [seven_bad_three_good], before the probe is started. *)
Definition torn_down : world :=
  mkWorld
    (WS.mk false 3 200 10 7 true 0 false seven_bad_three_good false Done Done)
    HC.init
    [Connect primary_ws; CreateTasks primary_ws;
     WaitClosed primary_ws; CancelPing primary_ws; CancelListen primary_ws].


(** A connected probe whose window holds nine bad samples. *)
Definition probe_nine_bad : world :=
  on_probe (HC.set_bandwidth_window (repeat true 9)) (H.connect [ConnOk] init).

(** Failover has happened: retry is off, the session is down and the probe
    has been asked to connect. *)
Definition failed_over (w : world) : bool :=
  negb (WS.retry_connection (primary w))
  && negb (WS.is_connected (primary w))
  && (0 <? occurrences (Connect healthcheck_ws) (trace w))%nat.

(** The probe is stopped: retry is off and neither task is running. *)
Definition probe_terminated (w : world) : Prop :=
  HC.attempt_retry (probe w) = false /\
  HC.ping_task (probe w) <> Running /\
  HC.listen_task (probe w) <> Running.

(** What is left of the primary's retry budget: the number of retries
    [handle_retry] still grants, [max_retry_attempts - retry_attempts] when
    that is positive. *)
Definition retries_left (w : world) : nat :=
  Z.to_nat (WS.max_retry_attempts (primary w) - WS.retry_attempts (primary w)).

(** Effects that the probe's own methods produce. *)
Definition probe_effect (e : effect) : Prop :=
  match e with
  | Connect healthcheck_ws | CreateTasks healthcheck_ws
  | CancelPing healthcheck_ws | CancelListen healthcheck_ws
  | WaitClosed healthcheck_ws | Sleep => True
  | _ => False
  end.

(** * Properties *)

(** ** Facts about the window *)

Section WindowFacts.

Import Window.

Lemma len_app (w : window) (res : bool) : len (w ++ [res]) = len w + 1.
Proof. unfold len. rewrite length_app. cbn [length]. lia. Qed.

Lemma len_nonneg (w : window) : 0 <= len w.
Proof. unfold len. lia. Qed.

Lemma len_slide (w : window) : w <> [] -> len (slide_window w) = len w - 1.
Proof. destruct w as [|a w]; [congruence|]. intros _. unfold len. cbn [slide_window length]. lia. Qed.

Lemma len_record (window_sz : Z) (w : window) (res : bool) :
  len w <= window_sz -> len (record window_sz w res) <= window_sz.
Proof.
  intros Hle. unfold record.
  destruct (window_sz <? len (w ++ [res])) eqn:E.
  - rewrite len_slide by (destruct w; discriminate). rewrite len_app. lia.
  - apply Z.ltb_ge in E. exact E.
Qed.

Lemma record_all_snoc (window_sz : Z) (w : window) (samples : list bool) (res : bool) :
  record_all window_sz w (samples ++ [res]) = record window_sz (record_all window_sz w samples) res.
Proof. unfold record_all. rewrite fold_left_app. reflexivity. Qed.

Lemma len_record_all (window_sz : Z) (samples : list bool) :
  forall w, len w <= window_sz -> len (record_all window_sz w samples) <= window_sz.
Proof.
  induction samples as [|res samples IH]; intros w Hle; simpl; [exact Hle|].
  apply IH, len_record, Hle.
Qed.

(** While there is room, recording only appends. *)
Lemma record_all_room (window_sz : Z) (samples : list bool) :
  forall w, len w + len samples <= window_sz -> record_all window_sz w samples = w ++ samples.
Proof.
  induction samples as [|res samples IH]; intros w Hle; simpl.
  - now rewrite app_nil_r.
  - unfold len in Hle. simpl in Hle.
    assert (Hstep : record window_sz w res = w ++ [res]).
    { unfold record. destruct (window_sz <? len (w ++ [res])) eqn:E; [|reflexivity].
      apply Z.ltb_lt in E. rewrite len_app in E. unfold len in E. lia. }
    rewrite Hstep, IH.
    + now rewrite <- app_assoc.
    + rewrite len_app. unfold len. lia.
Qed.

Lemma count_cons (p : bool -> bool) (a : bool) (w : window) :
  count p (a :: w) = (if p a then 1 else 0) + count p w.
Proof. unfold count. simpl. destruct (p a); reflexivity. Qed.

Lemma count_perm (p : bool -> bool) (w w' : window) :
  Permutation w w' -> count p w = count p w'.
Proof.
  induction 1 as [|a l l' _ IH|a b l|l l' l'' _ IH1 _ IH2].
  - reflexivity.
  - rewrite !count_cons, IH. reflexivity.
  - rewrite !count_cons. destruct (p a), (p b); lia.
  - congruence.
Qed.

Lemma count_app (p : bool -> bool) (w w' : window) :
  count p (w ++ w') = count p w + count p w'.
Proof.
  induction w as [|a w IH]; simpl; [reflexivity|].
  rewrite !count_cons, IH. destruct (p a); lia.
Qed.

Lemma count_repeat (p : bool -> bool) (b : bool) (n : nat) :
  count p (repeat b n) = if p b then Z.of_nat n else 0.
Proof.
  induction n as [|n IH]; [destruct (p b); reflexivity|].
  change (repeat b (S n)) with (b :: repeat b n).
  rewrite count_cons, IH. destruct (p b); lia.
Qed.

Lemma good_bad_len (w : window) : good_count w + bad_count w = len w.
Proof.
  unfold good_count, bad_count.
  induction w as [|a w IH]; [reflexivity|].
  rewrite !count_cons. unfold len in *. simpl length. destruct a; simpl negb; lia.
Qed.

Lemma count_nonneg (p : bool -> bool) (w : window) : 0 <= count p w.
Proof.
  induction w as [|a w IH]; [reflexivity|].
  rewrite count_cons. destruct (p a); lia.
Qed.

(** Any window is a rearrangement of its bad samples followed by its good ones. *)
Lemma perm_bad_then_good (w : window) :
  Permutation w (repeat true (Z.to_nat (bad_count w)) ++ repeat false (Z.to_nat (good_count w))).
Proof.
  unfold bad_count, good_count.
  induction w as [|a w IH]; [constructor|].
  pose proof (count_nonneg (fun m => m) w) as Hb.
  pose proof (count_nonneg (fun m => negb m) w) as Hg.
  rewrite !count_cons. destruct a; cbn [negb]; rewrite Z.add_0_l.
  - replace (Z.to_nat (1 + count (fun m => m) w))
      with (S (Z.to_nat (count (fun m => m) w))) by lia.
    cbn [repeat app]. constructor. exact IH.
  - replace (Z.to_nat (1 + count (fun m => negb m) w))
      with (S (Z.to_nat (count (fun m => negb m) w))) by lia.
    cbn [repeat]. apply Permutation_cons_app. exact IH.
Qed.

End WindowFacts.

(** ** What each operation leaves alone *)

Lemma probe_cleanup_primary (w : world) : primary (H.cleanup_tasks w) = primary w.
Proof.
  unfold H.cleanup_tasks.
  destruct (HC.ping_task (probe w)); cbn;
    destruct (HC.listen_task (probe w)); reflexivity.
Qed.

Lemma probe_connect_primary (outcomes : list conn_result) :
  forall w, primary (H.connect outcomes w) = primary w.
Proof.
  induction outcomes as [|o later IH]; intros w; [reflexivity|].
  destruct o; [reflexivity| | | |];
    cbn [H.connect]; unfold H.handle_retry_then; cbn [probe on_probe emit HC.attempt_retry
      HC.set_attempt_retry HC.set_is_connected negb];
    rewrite IH; cbn [primary on_probe emit]; rewrite probe_cleanup_primary; reflexivity.
Qed.

(** The probe's [connect] always leaves retry switched on. *)
Lemma probe_connect_attempt_retry (outcomes : list conn_result) :
  forall w, HC.attempt_retry (probe (H.connect outcomes w)) = true.
Proof.
  induction outcomes as [|o later IH]; intros w; [reflexivity|].
  destruct o; [reflexivity| | | |];
    cbn [H.connect]; unfold H.handle_retry_then; cbn [probe on_probe emit HC.attempt_retry
      HC.set_attempt_retry HC.set_is_connected negb];
    apply IH.
Qed.

Lemma probe_cleanup_trace (w : world) :
  exists steps, trace (H.cleanup_tasks w) = trace w ++ steps /\ Forall probe_effect steps.
Proof.
  unfold H.cleanup_tasks.
  destruct (HC.ping_task (probe w)); cbn [trace emit on_probe probe HC.listen_task
    HC.set_ping_task];
    destruct (HC.listen_task (probe w)); cbn [trace emit on_probe]; rewrite <- ?app_assoc;
    eexists; (split; [try reflexivity; symmetry; apply app_nil_r|]);
    repeat constructor.
Qed.

(** The probe's [connect] starts by issuing a connection attempt, and all it
    does is the probe's own business. *)
Lemma probe_connect_trace (outcomes : list conn_result) (w : world) :
  exists rest,
    trace (H.connect outcomes w) = trace w ++ Connect healthcheck_ws :: rest /\
    Forall probe_effect rest.
Proof.
  revert w. induction outcomes as [|o later IH]; intros w.
  - exists []. split; [reflexivity|constructor].
  - assert (Hfail : forall w0,
      exists rest, trace (H.handle_retry_then (H.connect later) w0) = trace w0 ++ rest /\
                   Forall probe_effect rest).
    { intros w0. unfold H.handle_retry_then.
      destruct (negb (HC.attempt_retry (probe w0))).
      - exists []. split; [now rewrite app_nil_r|constructor].
      - match goal with |- context [H.connect later ?x] => destruct (IH x) as (r & Hr & Hp) end.
        rewrite Hr. cbn [trace emit on_probe].
        destruct (probe_cleanup_trace w0) as (c & Hc & Hpc). rewrite Hc.
        exists (c ++ Sleep :: Connect healthcheck_ws :: r). split.
        + rewrite <- !app_assoc. reflexivity.
        + apply Forall_app. split; [exact Hpc|]. repeat constructor. exact Hp. }
    destruct o; cbn [H.connect];
      try (match goal with |- context [H.handle_retry_then _ ?x] =>
             destruct (Hfail x) as (r & Hr & Hp); rewrite Hr end);
      cbn [trace emit on_probe]; rewrite <- ?app_assoc;
      eexists; (split; [reflexivity|]); try exact Hp; repeat constructor.
Qed.

Lemma occurrences_app (e : effect) (a b : list effect) :
  occurrences e (a ++ b) = (occurrences e a + occurrences e b)%nat.
Proof. unfold occurrences. rewrite filter_app, length_app. reflexivity. Qed.

(** Effects of the probe are not effects of the primary. *)
Lemma occurrences_probe_effects (e : effect) (steps : list effect) :
  ~ probe_effect e -> Forall probe_effect steps -> occurrences e steps = 0%nat.
Proof.
  intros He. induction 1 as [|x l Hx _ IH]; [reflexivity|].
  unfold occurrences in *. cbn [filter].
  destruct (effect_eqb e x) eqn:E; [|exact IH].
  exfalso. apply He.
  destruct e as [[]|[]|[]|[]|[]| |], x as [[]|[]|[]|[]|[]| |];
    try discriminate E; exact Hx.
Qed.

Lemma primary_cleanup_frame (w : world) :
  probe (P.cleanup_tasks w) = probe w /\
  WS.bandwidth_window (primary (P.cleanup_tasks w)) = WS.bandwidth_window (primary w) /\
  WS.window_sz (primary (P.cleanup_tasks w)) = WS.window_sz (primary w) /\
  WS.maintain_healthcheck (primary (P.cleanup_tasks w)) = WS.maintain_healthcheck (primary w) /\
  WS.is_connected (primary (P.cleanup_tasks w)) = WS.is_connected (primary w) /\
  WS.retry_connection (primary (P.cleanup_tasks w)) = WS.retry_connection (primary w) /\
  WS.retry_attempts (primary (P.cleanup_tasks w)) = WS.retry_attempts (primary w) /\
  WS.ping_task (primary (P.cleanup_tasks w)) <> Running /\
  WS.listen_task (primary (P.cleanup_tasks w)) <> Running.
Proof.
  unfold P.cleanup_tasks.
  destruct (WS.ping_task (primary w)) eqn:Ep; cbn;
    destruct (WS.listen_task (primary w)) eqn:El; cbn;
    rewrite ?Ep, ?El; repeat split; congruence.
Qed.

Lemma primary_close_window (outcomes : list conn_result) (w : world) :
  WS.bandwidth_window (primary (P.close outcomes w)) = WS.bandwidth_window (primary w) /\
  WS.window_sz (primary (P.close outcomes w)) = WS.window_sz (primary w).
Proof.
  unfold P.close.
  match goal with |- context [P.cleanup_tasks ?x] =>
    set (w1 := x); destruct (primary_cleanup_frame w1) as (_ & Hw & Hs & _) end.
  assert (H1 : WS.bandwidth_window (primary w1) = WS.bandwidth_window (primary w) /\
               WS.window_sz (primary w1) = WS.window_sz (primary w))
    by (subst w1; destruct (WS.is_connected (primary w)); split; reflexivity).
  destruct H1 as [H1 H2].
  destruct (WS.maintain_healthcheck (primary (P.cleanup_tasks w1)));
    rewrite ?probe_connect_primary; split; congruence.
Qed.

(** [handle_new_latency] of the primary changes the window by one [record]. *)
Lemma primary_handle_new_latency_window (outcomes : list conn_result) (res : bool) (w : world) :
  WS.bandwidth_window (primary (P.handle_new_latency outcomes res w))
  = Window.record (WS.window_sz (primary w)) (WS.bandwidth_window (primary w)) res.
Proof.
  unfold P.handle_new_latency.
  destruct (P.is_window_bad (P.record_sample res w)); [|reflexivity].
  unfold P.handle_bad_window.
  match goal with |- context [if ?c then _ else _] => destruct c end; [|reflexivity].
  rewrite (proj1 (primary_close_window _ _)). reflexivity.
Qed.

(** ** The window: bound, silence until full, and counting *)

(** C2.  Take a primary whose window is what recording [samples] into an
    empty window leaves, for a window size that is not negative.  The window
    holds at most [window_sz] entries, and still does after
    [handle_new_latency] records one more sample (the oldest is dropped once
    the size is exceeded).  While fewer than [window_sz] samples have been
    recorded no verdict is reported: [is_window_bad] and [is_window_good] are
    both false, [handle_new_latency] only stores the sample, and the probe's
    evaluation of a window that is not full does nothing. *)
Theorem window_bounded_no_verdict_until_full :
  forall (outcomes : list conn_result) (res : bool) (threshold : Z)
         (samples : list bool) (w : world),
    0 <= WS.window_sz (primary w) ->
    WS.bandwidth_window (primary w)
      = Window.record_all (WS.window_sz (primary w)) [] samples ->
    let w' := P.handle_new_latency outcomes res w in
    Window.len (WS.bandwidth_window (primary w)) <= WS.window_sz (primary w) /\
    WS.bandwidth_window (primary w')
      = Window.record_all (WS.window_sz (primary w)) [] (samples ++ [res]) /\
    Window.len (WS.bandwidth_window (primary w')) <= WS.window_sz (primary w) /\
    (Window.len samples < WS.window_sz (primary w) ->
       P.is_window_bad w = false /\
       Window.is_window_good (WS.window_sz (primary w)) threshold
                             (WS.bandwidth_window (primary w)) = false) /\
    (Window.len (samples ++ [res]) < WS.window_sz (primary w) ->
       w' = P.record_sample res w) /\
    (forall callback,
       Window.len (HC.bandwidth_window (probe w)) < HC.window_sz (probe w) ->
       H.evaluate_window callback outcomes w = w).
Proof.
  intros outcomes res threshold samples w Hsz Hw w'.
  assert (Hbound : forall l, Window.len
            (Window.record_all (WS.window_sz (primary w)) [] l) <= WS.window_sz (primary w))
    by (intros l; apply len_record_all; exact Hsz).
  assert (Hw' : WS.bandwidth_window (primary w')
                = Window.record_all (WS.window_sz (primary w)) [] (samples ++ [res])).
  { subst w'. rewrite primary_handle_new_latency_window, record_all_snoc, Hw. reflexivity. }
  assert (Hshort : forall l, Window.len l < WS.window_sz (primary w) ->
            Window.record_all (WS.window_sz (primary w)) [] l = l /\
            (Window.len l =? WS.window_sz (primary w)) = false).
  { intros l Hl. split.
    - rewrite record_all_room; [reflexivity|]. change (Window.len []) with 0. lia.
    - apply Z.eqb_neq. lia. }
  split; [rewrite Hw; apply Hbound|].
  split; [exact Hw'|].
  split; [rewrite Hw'; apply Hbound|].
  split; [|split].
  - intros Hlt. destruct (Hshort samples Hlt) as [Heq Hne].
    unfold P.is_window_bad, Window.is_window_bad, Window.is_window_good.
    rewrite Hw, Heq, Hne. split; reflexivity.
  - intros Hlt. destruct (Hshort _ Hlt) as [Heq Hne].
    subst w'. unfold P.handle_new_latency.
    assert (Hb : P.is_window_bad (P.record_sample res w) = false).
    { unfold P.is_window_bad, Window.is_window_bad, P.record_sample.
      cbn [primary on_primary WS.bandwidth_window WS.window_sz WS.min_bad_count
           WS.set_bandwidth_window].
      rewrite Hw, <- record_all_snoc, Heq, Hne. reflexivity. }
    rewrite Hb. reflexivity.
  - intros callback Hlt. unfold H.evaluate_window.
    replace (Window.len (HC.bandwidth_window (probe w)) =? HC.window_sz (probe w))
      with false by (symmetry; apply Z.eqb_neq; lia).
    reflexivity.
Qed.

Lemma window_bounded_no_verdict_until_full_witness :
  Window.len (WS.bandwidth_window (primary (P.handle_new_latency [] true init))) <= 10 /\
  P.handle_new_latency [] true init = P.record_sample true init.
Proof.
  pose proof (window_bounded_no_verdict_until_full [] true 7 [] init) as Hc.
  cbv zeta in Hc.
  destruct Hc as (_ & _ & Hlen & _ & Hrec & _).
  - intro Hgt. discriminate Hgt.
  - reflexivity.
  - split; [exact Hlen | apply Hrec; reflexivity].
Defined.

(** C3.  In a window of size 10 with threshold count 7 the verdict depends
    on the counts only.  Record, in any order, [nbad] bad and [10 - nbad]
    good outcomes into an empty window: the bad count is [nbad], the good
    count is the size less the bad count, the window is bad exactly when
    [7 <= bad count] and good exactly when [7 <= good count]; so 7 bad and 3
    good give a bad window in every order, and 6 bad and 4 good give a
    window that is not bad. *)
Theorem verdict_depends_on_counts_only :
  forall (nbad : nat) (samples : list bool),
    (nbad <= 10)%nat ->
    Permutation samples (repeat true nbad ++ repeat false (10 - nbad)) ->
    let w := Window.record_all 10 [] samples in
    Window.bad_count w = Z.of_nat nbad /\
    Window.good_count w = 10 - Window.bad_count w /\
    Window.is_window_bad 10 7 w = (7 <=? Window.bad_count w) /\
    Window.is_window_good 10 7 w = (7 <=? Window.good_count w) /\
    (nbad = 7%nat -> Window.is_window_bad 10 7 w = true) /\
    (nbad = 6%nat -> Window.is_window_bad 10 7 w = false).
Proof.
  intros nbad samples Hn Hperm w.
  assert (Hlen : Window.len samples = 10).
  { unfold Window.len. rewrite (Permutation_length Hperm), length_app, !repeat_length. lia. }
  assert (Hw : w = samples).
  { subst w. rewrite record_all_room; [reflexivity|]. change (Window.len []) with 0. lia. }
  assert (Hbad : Window.bad_count w = Z.of_nat nbad).
  { rewrite Hw. unfold Window.bad_count.
    rewrite (count_perm _ _ _ Hperm), count_app, !count_repeat. lia. }
  assert (Hgood : Window.good_count w = 10 - Window.bad_count w).
  { pose proof (good_bad_len w) as Hsum. rewrite Hw in Hsum |- *. lia. }
  assert (Hfull : (Window.len w =? 10) = true) by (rewrite Hw, Hlen; reflexivity).
  unfold Window.is_window_bad, Window.is_window_good. rewrite Hfull, Hbad.
  split; [reflexivity|]. split; [rewrite <- Hbad; exact Hgood|].
  split; [reflexivity|]. split; [reflexivity|].
  split; intros ->; reflexivity.
Qed.

Lemma verdict_depends_on_counts_only_witness :
  Window.is_window_bad 10 7
    (Window.record_all 10 []
       [false; true; true; false; true; true; true; false; true; true]) = true.
Proof.
  refine (proj1 (proj2 (proj2 (proj2 (proj2
    (verdict_depends_on_counts_only 7
       [false; true; true; false; true; true; true; false; true; true] _ _))))) eq_refl).
  - repeat constructor.
  - exact (perm_bad_then_good
             [false; true; true; false; true; true; true; false; true; true]).
Defined.

(** ** Scenario B: seven bad probes, then three good ones *)

Lemma primary_handle_new_latency_threshold (outcomes : list conn_result) (res : bool) (w : world) :
  WS.good_latency_threshold (primary (P.handle_new_latency outcomes res w))
  = WS.good_latency_threshold (primary w).
Proof.
  unfold P.handle_new_latency.
  destruct (P.is_window_bad (P.record_sample res w)); [|reflexivity].
  unfold P.handle_bad_window.
  match goal with |- context [if ?c then _ else _] => destruct c end; [|reflexivity].
  unfold P.close.
  match goal with |- context [P.cleanup_tasks ?x] => set (w1 := x) end.
  assert (H1 : WS.good_latency_threshold (primary (P.cleanup_tasks w1))
               = WS.good_latency_threshold (primary w)).
  { unfold P.cleanup_tasks.
    destruct (WS.ping_task (primary w1)); cbn;
      destruct (WS.listen_task (primary w1)); cbn;
      subst w1; cbn; destruct (WS.is_connected _); reflexivity. }
  destruct (WS.maintain_healthcheck (primary (P.cleanup_tasks w1)));
    rewrite ?probe_connect_primary; exact H1.
Qed.

Lemma ping_pong_sample (outcomes : list conn_result) (r : probe_result) (res : bool) (w : world) :
  WS.is_connected (primary w) = true ->
  sample_of (WS.good_latency_threshold (primary w)) r = Some res ->
  P.ping_pong outcomes r w = P.handle_new_latency outcomes res w.
Proof.
  intros Hc Hs. unfold P.ping_pong. rewrite Hc. cbn [negb].
  destruct r; cbn [sample_of] in Hs; congruence.
Qed.

Lemma ping_loop_samples (outcomes : list conn_result) (pings : list probe_result)
      (samples : list bool) :
  forall w,
    Forall2 (fun r res => sample_of (WS.good_latency_threshold (primary w)) r = Some res)
            pings samples ->
    P.ping_loop outcomes pings w = sample_loop outcomes samples w.
Proof.
  intros w Hall. revert samples w Hall.
  induction pings as [|r pings IH]; intros samples w Hall; inversion Hall as [|? res ? later Hr Hrest];
    subst; [reflexivity|].
  cbn [P.ping_loop sample_loop].
  destruct (WS.is_connected (primary w)) eqn:Hc; [|reflexivity].
  rewrite (ping_pong_sample _ _ _ _ Hc Hr).
  apply IH. rewrite primary_handle_new_latency_threshold. exact Hrest.
Qed.

Lemma ping_loop_app (outcomes : list conn_result) (pings more : list probe_result) :
  forall w,
    P.ping_loop outcomes (pings ++ more) w
    = P.ping_loop outcomes more (P.ping_loop outcomes pings w).
Proof.
  induction pings as [|r pings IH]; intros w; [reflexivity|].
  cbn [app P.ping_loop].
  destruct (WS.is_connected (primary w)) eqn:Hc; [apply IH|].
  destruct more; cbn [P.ping_loop]; rewrite ?Hc; reflexivity.
Qed.

Lemma Forall2_firstn {A B : Type} (R : A -> B -> Prop) (k : nat) :
  forall l l', Forall2 R l l' -> Forall2 R (firstn k l) (firstn k l').
Proof.
  induction k as [|k IH]; intros l l' Hall; [constructor|].
  destruct Hall; cbn [firstn]; constructor; auto.
Qed.

(** C1, as the code has it.  With the default window size 10 and bad count
    7, let probes 1 to 7 be bad (a timeout, or a latency at or above the
    threshold) and probes 8 to 10 good.  After each of the first nine probes
    the primary has only stored the samples: no call has been made and
    failover has not happened, although the bad count is already 7 after
    probe 7.  Recording the tenth probe, which fills the window, triggers
    failover: retry is switched off, the session is closed and its tasks
    cancelled, once, and the probe's [connect] is called.  The ping loop
    then stops, whatever pings might follow. *)
Theorem failover_once_when_window_fills :
  forall (outcomes : list conn_result) (pings more : list probe_result),
    Forall2 (fun r res => sample_of 200 r = Some res) pings seven_bad_three_good ->
    (forall k, (k < 10)%nat ->
       let wk := P.ping_loop outcomes (firstn k pings) connected in
       WS.bandwidth_window (primary wk) = firstn k seven_bad_three_good /\
       trace wk = trace connected /\
       failed_over wk = false) /\
    (let w7 := P.ping_loop outcomes (firstn 7 pings) connected in
     Window.bad_count (WS.bandwidth_window (primary w7)) = 7 /\ P.is_window_bad w7 = false) /\
    (let w10 := P.ping_loop outcomes pings connected in
     w10 = H.connect outcomes torn_down /\
     failed_over w10 = true /\
     occurrences (WaitClosed primary_ws) (trace w10) = 1%nat /\
     occurrences (CancelPing primary_ws) (trace w10) = 1%nat /\
     occurrences (CancelListen primary_ws) (trace w10) = 1%nat /\
     P.ping_loop outcomes (pings ++ more) connected = w10).
Proof.
  intros outcomes pings more Hall.
  assert (Hk : forall k, P.ping_loop outcomes (firstn k pings) connected
                         = sample_loop outcomes (firstn k seven_bad_three_good) connected).
  { intros k. apply ping_loop_samples. apply Forall2_firstn. exact Hall. }
  split; [|split].
  - intros k Hlt wk. subst wk. rewrite Hk.
    do 10 (destruct k as [|k]; [vm_compute; repeat split|]). lia.
  - cbv zeta. rewrite Hk. vm_compute. split; reflexivity.
  - cbv zeta.
    assert (H10 : P.ping_loop outcomes pings connected = H.connect outcomes torn_down).
    { rewrite (ping_loop_samples outcomes pings seven_bad_three_good connected Hall).
      vm_compute. reflexivity. }
    destruct (probe_connect_trace outcomes torn_down) as (rest & Htr & Hrest).
    assert (Hocc : forall e, ~ probe_effect e ->
              occurrences e (trace (H.connect outcomes torn_down))
              = occurrences e (trace torn_down)).
    { intros e He. rewrite Htr.
      change (Connect healthcheck_ws :: rest) with ([Connect healthcheck_ws] ++ rest).
      rewrite !occurrences_app, (occurrences_probe_effects e rest He Hrest).
      rewrite (occurrences_probe_effects e [Connect healthcheck_ws] He)
        by (repeat constructor).
      lia. }
    rewrite ping_loop_app, H10.
    split; [reflexivity|].
    split.
    { unfold failed_over. rewrite probe_connect_primary, Htr.
      change (Connect healthcheck_ws :: rest) with ([Connect healthcheck_ws] ++ rest).
      rewrite !occurrences_app. reflexivity. }
    rewrite !Hocc by (intros Hf; exact Hf).
    repeat (split; [reflexivity|]).
    destruct more; cbn [P.ping_loop]; rewrite ?probe_connect_primary; reflexivity.
Qed.

Lemma failover_once_when_window_fills_witness :
  failed_over
    (P.ping_loop [ConnOk]
       (firstn 7
          ([ProbeTimeout; Pong (250 # 1); ProbeTimeout; Pong (200 # 1); ProbeTimeout;
            ProbeTimeout; Pong (1000 # 1)] ++ [Pong (20 # 1); Pong (199 # 1); Pong (0 # 1)]))
       connected) = false /\
  failed_over
    (P.ping_loop [ConnOk]
       ([ProbeTimeout; Pong (250 # 1); ProbeTimeout; Pong (200 # 1); ProbeTimeout;
         ProbeTimeout; Pong (1000 # 1)] ++ [Pong (20 # 1); Pong (199 # 1); Pong (0 # 1)])
       connected) = true.
Proof.
  destruct (failover_once_when_window_fills [ConnOk]
    ([ProbeTimeout; Pong (250 # 1); ProbeTimeout; Pong (200 # 1); ProbeTimeout;
      ProbeTimeout; Pong (1000 # 1)] ++ [Pong (20 # 1); Pong (199 # 1); Pong (0 # 1)]) [])
    as (Hearly & _ & _ & Hf & _).
  - repeat constructor.
  - destruct (Hearly 7%nat) as (_ & _ & Hnot).
    + repeat constructor.
    + split; [exact Hnot | exact Hf].
Defined.

(** C1 as stated fails: when the seventh bad sample has been recorded, the
    bad count is 7 but the window holds 7 of 10 entries, no verdict is
    computed, and nothing of failover has happened. *)
Lemma no_failover_at_seventh_bad_sample :
  Window.bad_count
    (WS.bandwidth_window (primary (P.ping_loop [ConnOk] (repeat ProbeTimeout 7) connected))) = 7 /\
  failed_over (P.ping_loop [ConnOk] (repeat ProbeTimeout 7) connected) = false /\
  WS.retry_connection (primary (P.ping_loop [ConnOk] (repeat ProbeTimeout 7) connected)) = true /\
  WS.is_connected (primary (P.ping_loop [ConnOk] (repeat ProbeTimeout 7) connected)) = true /\
  trace (P.ping_loop [ConnOk] (repeat ProbeTimeout 7) connected) = trace connected.
Proof. vm_compute. repeat split. Qed.

(** ** Scenario D: bounded retry *)

Lemma primary_connect_failed (o : conn_result) (later : list conn_result) (w : world) :
  o <> ConnOk ->
  P.connect (o :: later) w
  = P.handle_retry_then (P.connect later) (emit (Connect primary_ws) w).
Proof. destruct o; [congruence| | | |]; reflexivity. Qed.

(** C8, as the code has it.  With retry enabled and [max_retry_attempts = 3],
    a fresh primary whose connection attempts keep failing makes four
    attempts, the first one and three retries, and then stops: it is not
    connected, its attempt counter is 3, it has no tasks, and what the
    network would answer later is never asked for.  A later call of
    [connect()] from outside that fails makes one more attempt and no retry. *)
Theorem retries_stop_after_fourth_failure :
  forall (f1 f2 f3 f4 f5 : conn_result) (later : list conn_result),
    f1 <> ConnOk -> f2 <> ConnOk -> f3 <> ConnOk -> f4 <> ConnOk -> f5 <> ConnOk ->
    let w := P.connect (f1 :: f2 :: f3 :: f4 :: later) init in
    occurrences (Connect primary_ws) (trace w) = 4%nat /\
    trace w = repeat (Connect primary_ws) 4 /\
    WS.is_connected (primary w) = false /\
    WS.retry_attempts (primary w) = 3 /\
    WS.ping_task (primary w) = NoTask /\ WS.listen_task (primary w) = NoTask /\
    w = P.connect [f1; f2; f3; f4] init /\
    P.handle_retry later w = w /\
    trace (P.connect (f5 :: later) w) = repeat (Connect primary_ws) 5.
Proof.
  intros f1 f2 f3 f4 f5 later H1 H2 H3 H4 H5 w. subst w.
  rewrite (primary_connect_failed f5 later _ H5).
  rewrite (primary_connect_failed f1 _ _ H1), (primary_connect_failed f1 _ _ H1).
  assert (Hrun : forall rest,
    P.handle_retry_then (P.connect (f2 :: f3 :: f4 :: rest)) (emit (Connect primary_ws) init)
    = mkWorld (WS.set_retry_attempts 3 WS.init) HC.init (repeat (Connect primary_ws) 4)).
  { intros rest. cbv beta delta [P.handle_retry_then] iota. cbn -[P.connect].
    rewrite (primary_connect_failed f2 _ _ H2).
    cbv beta delta [P.handle_retry_then] iota. cbn -[P.connect].
    rewrite (primary_connect_failed f3 _ _ H3).
    cbv beta delta [P.handle_retry_then] iota. cbn -[P.connect].
    rewrite (primary_connect_failed f4 _ _ H4).
    reflexivity. }
  rewrite !Hrun. vm_compute. repeat split.
Qed.

Lemma retries_stop_after_fourth_failure_witness :
  trace (P.connect [ConnTimeout; ConnClosed; ConnCancelled; ConnError; ConnOk] init)
  = repeat (Connect primary_ws) 4.
Proof.
  refine (proj1 (proj2
    (retries_stop_after_fourth_failure ConnTimeout ConnClosed ConnCancelled ConnError
       ConnTimeout [ConnOk] _ _ _ _ _))); discriminate.
Defined.

(** C8 as stated fails: after three failed attempts in a row the primary is
    not at rest.  It has issued a fourth attempt on its own, and when that
    one succeeds it ends up connected. *)
Lemma fourth_attempt_after_three_failures :
  trace (P.connect [ConnTimeout; ConnTimeout; ConnTimeout] init)
    = repeat (Connect primary_ws) 4 /\
  occurrences (Connect primary_ws)
    (trace (P.connect [ConnTimeout; ConnTimeout; ConnTimeout; ConnOk] init)) = 4%nat /\
  WS.is_connected
    (primary (P.connect [ConnTimeout; ConnTimeout; ConnTimeout; ConnOk] init)) = true.
Proof. vm_compute. repeat split. Qed.

(** ** Reconnecting the primary *)

Lemma primary_connect_window (outcomes : list conn_result) :
  forall w, WS.bandwidth_window (primary (P.connect outcomes w)) = WS.bandwidth_window (primary w).
Proof.
  induction outcomes as [|o later IH]; intros w; [reflexivity|].
  destruct o; [reflexivity| | | |];
    cbn [P.connect]; unfold P.handle_retry_then; cbn [primary emit];
    destruct (WS.is_connected (primary w)); try reflexivity;
    destruct (WS.retry_connection (primary w) &&
              (WS.retry_attempts (primary w) <? WS.max_retry_attempts (primary w)));
    try reflexivity;
    rewrite IH; cbn [primary on_primary WS.bandwidth_window WS.set_retry_attempts];
    apply (primary_cleanup_frame (emit (Connect primary_ws) w)).
Qed.

(** C4 fails on the code.  The primary connects, records three bad samples,
    the peer closes the connection ([listen] calls [handle_retry], which
    returns at once because [is_connected] is still set), and the caller
    calls [connect()] again: the new session starts with the three old
    samples in its window.  In general [connect] of the primary never
    touches the window, while [connect] of the probe empties it on success. *)
Theorem primary_connect_keeps_old_samples :
  WS.bandwidth_window
    (primary
       (P.connect [ConnOk]
          (P.listen_closed []
             (P.ping_loop [] [ProbeTimeout; ProbeTimeout; ProbeTimeout] connected))))
    = [true; true; true] /\
  (forall outcomes w,
     WS.bandwidth_window (primary (P.connect outcomes w)) = WS.bandwidth_window (primary w)) /\
  (forall later w, HC.bandwidth_window (probe (H.connect (ConnOk :: later) w)) = []).
Proof.
  split; [vm_compute; reflexivity|].
  split; [intros; apply primary_connect_window|reflexivity].
Qed.

(** ** Probe samples *)

Lemma record_keeps_last (window_sz : Z) (w : Window.window) (res : bool) :
  1 <= window_sz -> last (Window.record window_sz w res) (negb res) = res.
Proof.
  intros Hsz. unfold Window.record.
  destruct (window_sz <? Window.len (w ++ [res])) eqn:E.
  - destruct w as [|a w]; [apply Z.ltb_lt in E; cbn in E; lia|].
    cbn [app Window.slide_window]. apply last_last.
  - apply last_last.
Qed.

(** C5.  In [ping_pong] of a connected primary a ping that times out is
    handed to [handle_new_latency] as a bad sample: the window becomes the
    old one with [true] recorded, and for a window size of at least 1 the
    sample is its newest entry.  Any other ping error changes nothing at
    all.  The probe does the same: a timeout is recorded as [true] before
    the window is evaluated, another error changes nothing. *)
Theorem timeout_recorded_error_dropped :
  forall (callback : option (list conn_result -> world -> world))
         (outcomes : list conn_result) (w : world),
    (WS.is_connected (primary w) = true ->
       P.ping_pong outcomes ProbeTimeout w = P.handle_new_latency outcomes true w /\
       WS.bandwidth_window (primary (P.ping_pong outcomes ProbeTimeout w))
         = Window.record (WS.window_sz (primary w)) (WS.bandwidth_window (primary w)) true /\
       (1 <= WS.window_sz (primary w) ->
          last (WS.bandwidth_window (primary (P.ping_pong outcomes ProbeTimeout w))) false
          = true)) /\
    P.ping_pong outcomes ProbeError w = w /\
    (HC.is_connected (probe w) = true ->
       H.ping_pong callback outcomes ProbeTimeout w
         = H.evaluate_window callback outcomes (H.record_sample true w) /\
       HC.bandwidth_window (probe (H.record_sample true w))
         = Window.record (HC.window_sz (probe w)) (HC.bandwidth_window (probe w)) true /\
       (1 <= HC.window_sz (probe w) ->
          last (HC.bandwidth_window (probe (H.record_sample true w))) false = true)) /\
    H.ping_pong callback outcomes ProbeError w = w.
Proof.
  intros callback outcomes w.
  split; [|split; [|split]].
  - intros Hc. unfold P.ping_pong. rewrite Hc. cbn [negb].
    rewrite primary_handle_new_latency_window.
    split; [reflexivity|]. split; [reflexivity|].
    intros Hsz. apply (record_keeps_last _ _ true Hsz).
  - unfold P.ping_pong. destruct (WS.is_connected (primary w)); reflexivity.
  - intros Hc. unfold H.ping_pong. rewrite Hc. cbn [negb].
    split; [reflexivity|]. split; [reflexivity|].
    intros Hsz. apply (record_keeps_last _ _ true Hsz).
  - unfold H.ping_pong. destruct (HC.is_connected (probe w)); reflexivity.
Qed.

Lemma timeout_recorded_error_dropped_witness :
  WS.bandwidth_window (primary (P.ping_pong [] ProbeTimeout connected)) = [true] /\
  last (HC.bandwidth_window
          (probe (H.record_sample true (H.connect [ConnOk] init)))) false = true.
Proof.
  destruct (timeout_recorded_error_dropped None [] connected) as (Hp & _).
  destruct (timeout_recorded_error_dropped None [] (H.connect [ConnOk] init))
    as (_ & _ & Hh & _).
  destruct (Hp eq_refl) as (_ & Hw & _).
  destruct (Hh eq_refl) as (_ & _ & Hl).
  split; [exact Hw|].
  apply Hl. intro Hgt. discriminate Hgt.
Defined.

(** ** Stopping the probe *)

Lemma probe_cleanup_stops (w : world) :
  HC.ping_task (probe (H.cleanup_tasks w)) <> Running /\
  HC.listen_task (probe (H.cleanup_tasks w)) <> Running /\
  HC.attempt_retry (probe (H.cleanup_tasks w)) = HC.attempt_retry (probe w) /\
  HC.is_connected (probe (H.cleanup_tasks w)) = HC.is_connected (probe w).
Proof.
  unfold H.cleanup_tasks.
  destruct (HC.ping_task (probe w)) eqn:Ep; cbn;
    destruct (HC.listen_task (probe w)) eqn:El; cbn;
    rewrite ?Ep, ?El; repeat split; congruence.
Qed.

Lemma terminate_stops_probe (w : world) : probe_terminated (H.terminate w).
Proof.
  unfold probe_terminated, H.terminate.
  destruct (probe_cleanup_stops (on_probe (HC.set_attempt_retry false) w))
    as (Hp & Hl & Ha & _).
  repeat split; assumption.
Qed.



(** ** Recovery *)




(** ** Closing the primary *)




(** ** The probe's window *)

Lemma probe_close_frame (w : world) :
  HC.is_connected (probe (H.close w)) = false /\
  HC.ping_task (probe (H.close w)) = HC.ping_task (probe w) /\
  HC.listen_task (probe (H.close w)) = HC.listen_task (probe w) /\
  primary (H.close w) = primary w.
Proof.
  unfold H.close. destruct (HC.is_connected (probe w)) eqn:E; cbn; rewrite ?E; repeat split.
Qed.




(** * Further properties of the code *)

(** ** The window as a queue *)

Lemma skipn_succ_slide (d : nat) :
  forall w : Window.window, skipn (S d) w = Window.slide_window (skipn d w).
Proof.
  induction d as [|d IH]; intros w.
  - destruct w; reflexivity.
  - destruct w as [|a w]; [reflexivity|].
    change (skipn (S (S d)) (a :: w)) with (skipn (S d) w).
    change (skipn (S d) (a :: w)) with (skipn d w). apply IH.
Qed.

(** X1.  The window is a queue of the latest samples: after recording any
    samples into an empty window of size [window_sz >= 0], the window holds
    the last [window_sz] of them, in the order they came (all of them while
    there are fewer). *)
Theorem window_holds_latest_samples :
  forall (window_sz : Z) (samples : list bool),
    0 <= window_sz ->
    Window.record_all window_sz [] samples
    = skipn (length samples - Z.to_nat window_sz) samples.
Proof.
  intros window_sz samples Hsz.
  induction samples as [|res samples IH] using rev_ind; [reflexivity|].
  rewrite record_all_snoc, IH, length_app. cbn [length].
  unfold Window.record.
  destruct (Nat.lt_ge_cases (length samples) (Z.to_nat window_sz)) as [Hlt|Hge].
  - replace (length samples - Z.to_nat window_sz)%nat with 0%nat by lia.
    replace (length samples + 1 - Z.to_nat window_sz)%nat with 0%nat by lia.
    cbn [skipn].
    replace (window_sz <? Window.len (samples ++ [res])) with false; [reflexivity|].
    symmetry. apply Z.ltb_ge. rewrite len_app. unfold Window.len. lia.
  - replace (length samples + 1 - Z.to_nat window_sz)%nat
      with (S (length samples - Z.to_nat window_sz)) by lia.
    set (d := (length samples - Z.to_nat window_sz)%nat).
    replace (window_sz <? Window.len (skipn d samples ++ [res])) with true.
    + rewrite skipn_succ_slide, skipn_app.
      replace (d - length samples)%nat with 0%nat by lia. reflexivity.
    + symmetry. apply Z.ltb_lt. rewrite len_app. unfold Window.len.
      rewrite length_skipn. lia.
Qed.

Lemma window_holds_latest_samples_witness :
  Window.record_all 3 [] [true; false; false; true; true] = [false; true; true].
Proof.
  apply (window_holds_latest_samples 3 [true; false; false; true; true]).
  intro Hgt. discriminate Hgt.
Defined.

(** X2.  Once the window is full it stays full: recording into a window of
    exactly [window_sz >= 1] entries drops the oldest entry, keeps the others
    in order, puts the new sample last, and leaves [window_sz] entries. *)
Theorem full_window_slides_by_one :
  forall (window_sz : Z) (w : Window.window) (res : bool),
    1 <= window_sz ->
    Window.len w = window_sz ->
    Window.record window_sz w res = Window.slide_window w ++ [res] /\
    Window.len (Window.record window_sz w res) = window_sz /\
    (forall oldest rest, w = oldest :: rest ->
       Window.record window_sz w res = rest ++ [res]).
Proof.
  intros window_sz w res Hsz Hlen.
  assert (Hrec : Window.record window_sz w res = Window.slide_window w ++ [res]).
  { unfold Window.record.
    replace (window_sz <? Window.len (w ++ [res])) with true
      by (symmetry; apply Z.ltb_lt; rewrite len_app; lia).
    destruct w as [|a w]; [cbn in Hlen; lia|reflexivity]. }
  split; [exact Hrec|]. split.
  - rewrite Hrec, len_app, len_slide; [lia|].
    destruct w; [cbn in Hlen; lia|discriminate].
  - intros oldest rest ->. exact Hrec.
Qed.

Lemma full_window_slides_by_one_witness :
  Window.record 3 [true; false; false] true = [false; false; true].
Proof.
  refine (proj2 (proj2 (full_window_slides_by_one 3 [true; false; false] true _ _))
            true [false; false] eq_refl).
  - intro Hgt. discriminate Hgt.
  - reflexivity.
Defined.

(** X3.  A window size of zero or less keeps the window empty whatever is
    recorded.  With a negative size no verdict is ever reached; with size
    zero the empty window counts as full, so it is bad exactly when
    [min_bad_count <= 0] and good exactly when [min_good_count <= 0]. *)
Theorem degenerate_window_stays_empty :
  forall (window_sz threshold : Z) (samples : list bool),
    window_sz <= 0 ->
    Window.record_all window_sz [] samples = [] /\
    (window_sz < 0 ->
       Window.is_window_bad window_sz threshold (Window.record_all window_sz [] samples) = false /\
       Window.is_window_good window_sz threshold (Window.record_all window_sz [] samples) = false) /\
    (window_sz = 0 ->
       Window.is_window_bad window_sz threshold (Window.record_all window_sz [] samples)
         = (threshold <=? 0) /\
       Window.is_window_good window_sz threshold (Window.record_all window_sz [] samples)
         = (threshold <=? 0)).
Proof.
  intros window_sz threshold samples Hsz.
  assert (Hempty : Window.record_all window_sz [] samples = []).
  { induction samples as [|res samples IH] using rev_ind; [reflexivity|].
    rewrite record_all_snoc, IH. unfold Window.record.
    replace (window_sz <? Window.len ([] ++ [res])) with true; [reflexivity|].
    symmetry. apply Z.ltb_lt. cbn. lia. }
  rewrite Hempty. split; [reflexivity|].
  unfold Window.is_window_bad, Window.is_window_good. change (Window.len []) with 0.
  split.
  - intros Hneg. replace (0 =? window_sz) with false by (symmetry; apply Z.eqb_neq; lia).
    split; reflexivity.
  - intros ->. split; reflexivity.
Qed.

Lemma degenerate_window_stays_empty_witness :
  Window.record_all 0 [] [true; true] = [] /\
  Window.is_window_bad 0 7 (Window.record_all 0 [] [true; true]) = false /\
  Window.is_window_bad (-1) 0 (Window.record_all (-1) [] [true; true]) = false.
Proof.
  destruct (degenerate_window_stays_empty 0 7 [true; true]) as (He & _ & Hz);
    [intro Hgt; discriminate Hgt|].
  destruct (degenerate_window_stays_empty (-1) 0 [true; true]) as (_ & Hn & _);
    [intro Hgt; discriminate Hgt|].
  split; [exact He|]. split.
  - exact (proj1 (Hz eq_refl)).
  - exact (proj1 (Hn eq_refl)).
Defined.

(** X4.  When the two threshold counts add up to more than the window
    size, as the defaults 7 and 7 do for size 10, no window is both bad for
    the primary and good for the probe. *)
Theorem bad_and_good_exclude_each_other :
  forall (window_sz min_bad_count min_good_count : Z) (w : Window.window),
    window_sz < min_bad_count + min_good_count ->
    Window.is_window_bad window_sz min_bad_count w = true ->
    Window.is_window_good window_sz min_good_count w = false.
Proof.
  intros window_sz mb mg w Hsum. unfold Window.is_window_bad, Window.is_window_good.
  destruct (Window.len w =? window_sz) eqn:E; [|discriminate].
  apply Z.eqb_eq in E. pose proof (good_bad_len w) as Hlen.
  intros Hbad. apply Z.leb_le in Hbad. apply Z.leb_gt. lia.
Qed.

Lemma bad_and_good_exclude_each_other_witness :
  Window.is_window_good 10 7 (repeat true 7 ++ repeat false 3) = false.
Proof.
  apply (bad_and_good_exclude_each_other 10 7 7 (repeat true 7 ++ repeat false 3));
    reflexivity.
Defined.

(** ** Classifying a ping *)

(** X5.  A pong is a bad sample exactly when its latency is at or above
    [good_latency_threshold]: a connected primary, and a connected probe,
    hand [True] to [handle_new_latency] when [threshold <= latency] and
    [False] when [latency < threshold]; a latency equal to the threshold is
    bad. *)
Theorem latency_at_threshold_is_bad :
  forall (callback : option (list conn_result -> world -> world))
         (outcomes : list conn_result) (latency : Q) (w : world),
    (WS.is_connected (primary w) = true ->
       ((inject_Z (WS.good_latency_threshold (primary w)) <= latency)%Q ->
          P.ping_pong outcomes (Pong latency) w = P.handle_new_latency outcomes true w) /\
       ((latency < inject_Z (WS.good_latency_threshold (primary w)))%Q ->
          P.ping_pong outcomes (Pong latency) w = P.handle_new_latency outcomes false w) /\
       P.ping_pong outcomes (Pong (inject_Z (WS.good_latency_threshold (primary w)))) w
         = P.handle_new_latency outcomes true w) /\
    (HC.is_connected (probe w) = true ->
       ((inject_Z (HC.good_latency_threshold (probe w)) <= latency)%Q ->
          H.ping_pong callback outcomes (Pong latency) w
          = H.handle_new_latency callback outcomes true w) /\
       ((latency < inject_Z (HC.good_latency_threshold (probe w)))%Q ->
          H.ping_pong callback outcomes (Pong latency) w
          = H.handle_new_latency callback outcomes false w)).
Proof.
  intros callback outcomes latency w.
  assert (Hle : forall t, (inject_Z t <= latency)%Q -> Qle_bool (inject_Z t) latency = true)
    by (intros t Ht; apply Qle_bool_iff; exact Ht).
  assert (Hlt : forall t, (latency < inject_Z t)%Q -> Qle_bool (inject_Z t) latency = false).
  { intros t Ht. destruct (Qle_bool (inject_Z t) latency) eqn:E; [|reflexivity].
    apply Qle_bool_iff in E. exfalso. exact (Qlt_not_le _ _ Ht E). }
  split.
  - intros Hc. unfold P.ping_pong. rewrite Hc. cbn [negb].
    split; [intros Ht; rewrite (Hle _ Ht); reflexivity|].
    split; [intros Ht; rewrite (Hlt _ Ht); reflexivity|].
    replace (Qle_bool _ _) with true; [reflexivity|].
    symmetry. apply Qle_bool_iff. apply Qle_refl.
  - intros Hc. unfold H.ping_pong. rewrite Hc. cbn [negb].
    split; [intros Ht; rewrite (Hle _ Ht); reflexivity|].
    intros Ht; rewrite (Hlt _ Ht); reflexivity.
Qed.

Lemma latency_at_threshold_is_bad_witness :
  P.ping_pong [] (Pong (199 # 1)) connected = P.handle_new_latency [] false connected /\
  P.ping_pong [] (Pong (200 # 1)) connected = P.handle_new_latency [] true connected.
Proof.
  destruct (latency_at_threshold_is_bad None [] (199 # 1) connected) as (Hlow & _).
  destruct (latency_at_threshold_is_bad None [] (200 # 1) connected) as (Hhigh & _).
  destruct (Hlow eq_refl) as (_ & Hgood & _).
  destruct (Hhigh eq_refl) as (Hbad & _).
  split.
  - apply Hgood. reflexivity.
  - apply Hbad. intro Hgt. discriminate Hgt.
Defined.

(** ** A healthy link *)

Lemma count_slide_le (p : bool -> bool) (w : Window.window) :
  Window.count p (Window.slide_window w) <= Window.count p w.
Proof.
  destruct w as [|a w]; [apply Z.le_refl|].
  cbn [Window.slide_window]. rewrite count_cons. destruct (p a); lia.
Qed.

Lemma record_good_keeps_clean (window_sz : Z) (w : Window.window) :
  Window.bad_count w = 0 -> Window.bad_count (Window.record window_sz w false) = 0.
Proof.
  intros Hclean.
  assert (Happ : Window.bad_count (w ++ [false]) = 0).
  { unfold Window.bad_count in *. rewrite count_app, Hclean. reflexivity. }
  unfold Window.record. destruct (window_sz <? Window.len (w ++ [false])); [|exact Happ].
  pose proof (count_slide_le (fun m => m) (w ++ [false])) as Hle.
  pose proof (count_nonneg (fun m => m) (Window.slide_window (w ++ [false]))) as Hge.
  unfold Window.bad_count in *. lia.
Qed.

(** X6.  A link that answers in time never fails over.  Take a primary with
    [min_bad_count >= 1] whose window holds no bad sample.  Whatever number
    of pings follow, each a pong below the threshold or a ping error, the
    ping loop changes nothing but the window, which still holds no bad
    sample: no call is made, retry stays as it was and the probe is not
    touched. *)
Theorem good_pings_never_fail_over :
  forall (outcomes : list conn_result) (pings : list probe_result) (w : world),
    1 <= WS.min_bad_count (primary w) ->
    Window.bad_count (WS.bandwidth_window (primary w)) = 0 ->
    Forall (fun r => sample_of (WS.good_latency_threshold (primary w)) r <> Some true) pings ->
    exists window',
      P.ping_loop outcomes pings w = on_primary (WS.set_bandwidth_window window') w /\
      Window.bad_count window' = 0.
Proof.
  intros outcomes pings. induction pings as [|r pings IH]; intros w Hmin Hclean Hall.
  - exists (WS.bandwidth_window (primary w)). split; [|exact Hclean].
    destruct w as [[] ? ?]. reflexivity.
  - inversion Hall as [|? ? Hr Hrest]; subst.
    cbn [P.ping_loop].
    destruct (WS.is_connected (primary w)) eqn:Hc.
    2:{ exists (WS.bandwidth_window (primary w)). split; [|exact Hclean].
        destruct w as [[] ? ?]. reflexivity. }
    assert (Hstep : exists window',
              P.ping_pong outcomes r w = on_primary (WS.set_bandwidth_window window') w /\
              Window.bad_count window' = 0).
    { unfold P.ping_pong. rewrite Hc. cbn [negb].
      destruct r as [latency| |].
      - cbn [sample_of] in Hr.
        destruct (Qle_bool (inject_Z (WS.good_latency_threshold (primary w))) latency);
          [congruence|].
        exists (Window.record (WS.window_sz (primary w)) (WS.bandwidth_window (primary w)) false).
        pose proof (record_good_keeps_clean (WS.window_sz (primary w)) _ Hclean) as Hrec.
        split; [|exact Hrec].
        unfold P.handle_new_latency.
        replace (P.is_window_bad (P.record_sample false w)) with false; [reflexivity|].
        symmetry. unfold P.is_window_bad, Window.is_window_bad, P.record_sample.
        cbn [primary on_primary WS.bandwidth_window WS.window_sz WS.min_bad_count
             WS.set_bandwidth_window].
        rewrite Hrec. destruct (_ =? _); [apply Z.leb_gt; lia|reflexivity].
      - cbn [sample_of] in Hr. congruence.
      - exists (WS.bandwidth_window (primary w)). split; [|exact Hclean].
        destruct w as [[] ? ?]. reflexivity. }
    destruct Hstep as (w1 & Hstep & Hclean1). rewrite Hstep.
    destruct (IH (on_primary (WS.set_bandwidth_window w1) w)) as (w2 & Hloop & Hclean2);
      [exact Hmin|exact Hclean1|exact Hrest|].
    exists w2. split; [|exact Hclean2]. rewrite Hloop. reflexivity.
Qed.

Lemma good_pings_never_fail_over_witness :
  exists window',
    P.ping_loop [ConnOk] [Pong (20 # 1); ProbeError; Pong (150 # 1)] connected
    = on_primary (WS.set_bandwidth_window window') connected /\
    Window.bad_count window' = 0.
Proof.
  apply (good_pings_never_fail_over [ConnOk] [Pong (20 # 1); ProbeError; Pong (150 # 1)]
           connected).
  - intro Hgt. discriminate Hgt.
  - reflexivity.
  - repeat constructor; discriminate.
Defined.

(** ** When failover happens *)




(** ** The retry budget of the primary *)

(** [cleanup_tasks] of the primary only marks the two tasks and records the
    cancellations. *)
Lemma primary_cleanup_shape (w : world) :
  exists pt lt steps,
    primary (P.cleanup_tasks w) = WS.set_listen_task lt (WS.set_ping_task pt (primary w)) /\
    probe (P.cleanup_tasks w) = probe w /\
    trace (P.cleanup_tasks w) = trace w ++ steps /\
    pt <> Running /\ lt <> Running /\
    forall p, occurrences (Connect p) steps = 0%nat.
Proof.
  destruct w as [[rc m g s mb mh ra ic bw cn pt lt] hc tr].
  exists (match pt with Running => Done | t => t end),
         (match lt with Running => Done | t => t end),
         ((match pt with Running => [CancelPing primary_ws] | _ => [] end)
          ++ (match lt with Running => [CancelListen primary_ws] | _ => [] end)).
  unfold P.cleanup_tasks.
  destruct pt, lt; cbn; rewrite <- ?app_assoc, ?app_nil_r;
    (repeat (split; [first [reflexivity | discriminate]|])); intros []; reflexivity.
Qed.


(** X8.  However the network answers, one call of the primary's [connect]
    makes at least one connection attempt and at most one more than the
    retries it has left ([max_retry_attempts - retry_attempts], or none when
    that is not positive). *)
Theorem attempts_bounded_by_retry_budget :
  forall (outcomes : list conn_result) (w : world),
    (occurrences (Connect primary_ws) (trace w) + 1
       <= occurrences (Connect primary_ws) (trace (P.connect outcomes w)))%nat /\
    (occurrences (Connect primary_ws) (trace (P.connect outcomes w))
       <= occurrences (Connect primary_ws) (trace w) + 1 + retries_left w)%nat.
Proof.
  intros outcomes. induction outcomes as [|o later IH]; intros w.
  - cbn [P.connect trace emit]. rewrite occurrences_app. cbn. lia.
  - assert (Hone : occurrences (Connect primary_ws) (trace (emit (Connect primary_ws) w))
                   = (occurrences (Connect primary_ws) (trace w) + 1)%nat)
      by (cbn [trace emit]; rewrite occurrences_app; reflexivity).
    destruct o;
    [cbn [P.connect trace emit on_primary]; rewrite !occurrences_app; cbn; lia
    |(rewrite primary_connect_failed by discriminate;
      unfold P.handle_retry_then; cbn [primary emit];
      (destruct (WS.is_connected (primary w)); [lia|]);
      (destruct (WS.retry_connection (primary w)); [|cbn [andb]; lia]);
      (destruct (WS.retry_attempts (primary w) <? WS.max_retry_attempts (primary w)) eqn:E;
       [|cbn [andb]; lia]);
      cbn [andb]; apply Z.ltb_lt in E;
      destruct (primary_cleanup_shape (emit (Connect primary_ws) w))
        as (pt & lt & steps & Hprim & _ & Htr & _ & _ & Hsteps);
      match goal with |- context [P.connect later ?x] => destruct (IH x) as [Hlo Hhi] end;
      unfold retries_left in *;
      cbn [primary on_primary trace] in Hlo, Hhi;
      rewrite Htr in Hlo; rewrite Hprim, Htr in Hhi;
      cbn [primary emit trace WS.retry_attempts WS.max_retry_attempts
           WS.set_retry_attempts WS.set_listen_task WS.set_ping_task] in Hlo, Hhi;
      rewrite !occurrences_app, Hsteps in Hlo, Hhi;
      change (occurrences (Connect primary_ws) [Connect primary_ws]) with 1%nat in Hlo, Hhi;
      clear Hone; lia)..].
Qed.





(** ** The probe retries without bound *)

(** [cleanup_tasks] of the probe only marks the two tasks and records the
    cancellations. *)
Lemma probe_cleanup_shape (w : world) :
  exists pt lt steps,
    probe (H.cleanup_tasks w) = HC.set_listen_task lt (HC.set_ping_task pt (probe w)) /\
    primary (H.cleanup_tasks w) = primary w /\
    trace (H.cleanup_tasks w) = trace w ++ steps /\
    pt <> Running /\ lt <> Running /\
    (forall p, occurrences (Connect p) steps = 0%nat) /\
    occurrences Sleep steps = 0%nat /\
    occurrences OnGoodLatency steps = 0%nat.
Proof.
  destruct w as [pr [t s g r c b a k pt lt] tr].
  exists (match pt with Running => Done | x => x end),
         (match lt with Running => Done | x => x end),
         ((match pt with Running => [CancelPing healthcheck_ws] | _ => [] end)
          ++ (match lt with Running => [CancelListen healthcheck_ws] | _ => [] end)).
  unfold H.cleanup_tasks.
  destruct pt, lt; cbn; rewrite <- ?app_assoc, ?app_nil_r;
    (repeat (split; [first [reflexivity | discriminate | intros []; reflexivity]|]));
    reflexivity.
Qed.

(** One failed attempt of the probe: retry is switched on, the attempt is
    recorded, the probe is marked disconnected, its tasks are cleaned up,
    the counter goes up by one, it sleeps and [connect] runs again. *)
Lemma probe_retry_step (f : conn_result) (later : list conn_result) (w : world) :
  f <> ConnOk ->
  let w1 := emit Sleep
              (on_probe (fun o => HC.set_retry_attempts (HC.retry_attempts o + 1) o)
                 (H.cleanup_tasks
                    (on_probe (HC.set_is_connected false)
                       (emit (Connect healthcheck_ws)
                          (on_probe (HC.set_attempt_retry true) w))))) in
  H.connect (f :: later) w = H.connect later w1 /\
  HC.retry_attempts (probe w1) = HC.retry_attempts (probe w) + 1 /\
  HC.is_connected (probe w1) = false /\
  primary w1 = primary w /\
  occurrences (Connect healthcheck_ws) (trace w1)
    = S (occurrences (Connect healthcheck_ws) (trace w)) /\
  occurrences Sleep (trace w1) = S (occurrences Sleep (trace w)) /\
  occurrences OnGoodLatency (trace w1) = occurrences OnGoodLatency (trace w).
Proof.
  intros Hf w1. split; [destruct f; [congruence|reflexivity..]|].
  destruct (probe_cleanup_shape
              (on_probe (HC.set_is_connected false)
                 (emit (Connect healthcheck_ws) (on_probe (HC.set_attempt_retry true) w))))
    as (pt & lt & steps & Hprobe & Hprim & Htr & _ & _ & Hconn & Hsleep & Hgood).
  subst w1. cbn [probe primary trace on_probe emit]. rewrite Hprobe, Hprim, Htr.
  cbn [probe primary trace on_probe emit HC.retry_attempts HC.is_connected
       HC.set_retry_attempts HC.set_listen_task HC.set_ping_task HC.set_is_connected
       HC.set_attempt_retry].
  rewrite !occurrences_app, Hconn, Hsleep, Hgood. cbn.
  repeat split; lia.
Qed.





(** ** When the peer closes the connection *)

(** X13.  When [listen] catches [ConnectionClosed] it calls
    [handle_retry].  In the primary this does nothing while [is_connected]
    is set, so a connected primary does not reconnect.  In the probe it does
    not look at [is_connected]: with retry on, the probe counts a retry,
    sleeps and issues a new connection attempt, and with retry off (after
    [terminate]) it does nothing. *)
Theorem remote_close_only_probe_reconnects :
  forall (outcomes : list conn_result) (w : world),
    (WS.is_connected (primary w) = true -> P.listen_closed outcomes w = w) /\
    (HC.attempt_retry (probe w) = true ->
       exists steps rest,
         trace (H.listen_closed outcomes w)
           = trace w ++ steps ++ Sleep :: Connect healthcheck_ws :: rest /\
         (occurrences Sleep (trace (H.listen_closed outcomes w))
            >= S (occurrences Sleep (trace w)))%nat /\
         HC.attempt_retry (probe (H.listen_closed outcomes w)) = true) /\
    (HC.attempt_retry (probe w) = false -> H.listen_closed outcomes w = w) /\
    H.listen_closed outcomes (H.terminate w) = H.terminate w.
Proof.
  intros outcomes w.
  split; [|split; [|split]].
  - intros Hc. unfold P.listen_closed, P.handle_retry, P.handle_retry_then.
    rewrite Hc. reflexivity.
  - intros Hr. unfold H.listen_closed, H.handle_retry, H.handle_retry_then.
    rewrite Hr. cbn [negb].
    destruct (probe_cleanup_shape w) as (pt & lt & steps & _ & _ & Htr & _).
    match goal with |- context [H.connect outcomes ?x] =>
      destruct (probe_connect_trace outcomes x) as (rest & Hrest & _) end.
    exists steps, rest. rewrite Hrest. cbn [trace emit on_probe]. rewrite Htr.
    split; [rewrite <- !app_assoc; reflexivity|].
    split; [|apply probe_connect_attempt_retry].
    rewrite !occurrences_app.
    change (occurrences Sleep [Sleep]) with 1%nat. lia.
  - intros Hr. unfold H.listen_closed, H.handle_retry, H.handle_retry_then.
    rewrite Hr. reflexivity.
  - unfold H.listen_closed, H.handle_retry, H.handle_retry_then.
    rewrite (proj1 (terminate_stops_probe w)). reflexivity.
Qed.

Lemma remote_close_only_probe_reconnects_witness :
  P.listen_closed [ConnOk] connected = connected /\
  HC.attempt_retry (probe (H.listen_closed [ConnOk] (H.connect [ConnOk] init))) = true.
Proof.
  destruct (remote_close_only_probe_reconnects [ConnOk] connected) as (Hp & _).
  destruct (remote_close_only_probe_reconnects [ConnOk] (H.connect [ConnOk] init))
    as (_ & Hh & _).
  split; [exact (Hp eq_refl)|].
  destruct (Hh eq_refl) as (steps & rest & _ & _ & Hon). exact Hon.
Defined.

(** X14.  [terminate] lasts until the next [connect]: whatever the network
    answers, a probe that was terminated and is asked to connect again has
    retry on again and has issued a connection attempt after the
    cancellations of [terminate], so it is no longer stopped.  The same probe
    object can serve one failover after another. *)
Theorem connect_rearms_terminated_probe :
  forall (outcomes : list conn_result) (w : world),
    probe_terminated (H.terminate w) /\
    HC.attempt_retry (probe (H.connect outcomes (H.terminate w))) = true /\
    ~ probe_terminated (H.connect outcomes (H.terminate w)) /\
    exists rest,
      trace (H.connect outcomes (H.terminate w))
        = trace (H.terminate w) ++ Connect healthcheck_ws :: rest.
Proof.
  intros outcomes w.
  pose proof (probe_connect_attempt_retry outcomes (H.terminate w)) as Hon.
  split; [apply terminate_stops_probe|].
  split; [exact Hon|].
  split; [intros (Hoff & _); congruence|].
  destruct (probe_connect_trace outcomes (H.terminate w)) as (rest & Hrest & _).
  exists rest. exact Hrest.
Qed.

(** ** Tearing down the primary *)



(** ** Recovery *)

Lemma primary_connect_quiet (outcomes : list conn_result) :
  forall w, occurrences OnGoodLatency (trace (P.connect outcomes w))
            = occurrences OnGoodLatency (trace w).
Proof.
  assert (Hclean : forall w, occurrences OnGoodLatency (trace (P.cleanup_tasks w))
                             = occurrences OnGoodLatency (trace w)).
  { intros [[rc m g s mb mh ra ic bw cn pt lt] hc tr]. unfold P.cleanup_tasks.
    destruct pt, lt; cbn [primary trace emit on_primary WS.listen_task WS.ping_task
                           WS.set_ping_task];
      rewrite ?occurrences_app; cbn; lia. }
  induction outcomes as [|o later IH]; intros w.
  - cbn [P.connect trace emit]. rewrite occurrences_app. cbn. lia.
  - destruct o;
    [cbn [P.connect trace emit on_primary]; rewrite !occurrences_app; cbn; lia
    |(rewrite primary_connect_failed by discriminate;
      unfold P.handle_retry_then; cbn [primary emit];
      destruct (WS.is_connected (primary w));
      [cbn [trace emit]; rewrite occurrences_app; cbn; lia|];
      destruct (WS.retry_connection (primary w) &&
                (WS.retry_attempts (primary w) <? WS.max_retry_attempts (primary w)));
      [|cbn [trace emit]; rewrite occurrences_app; cbn; lia];
      rewrite IH; cbn [trace on_primary]; rewrite Hclean;
      cbn [trace emit]; rewrite occurrences_app; cbn; lia)..].
Qed.

Lemma probe_connect_quiet (outcomes : list conn_result) (w : world) :
  occurrences OnGoodLatency (trace (H.connect outcomes w))
  = occurrences OnGoodLatency (trace w).
Proof.
  destruct (probe_connect_trace outcomes w) as (rest & Hrest & Hall).
  rewrite Hrest.
  change (Connect healthcheck_ws :: rest) with ([Connect healthcheck_ws] ++ rest).
  rewrite !occurrences_app.
  rewrite (occurrences_probe_effects OnGoodLatency rest) by (auto; intros Hf; exact Hf).
  cbn. lia.
Qed.

(** X16.  With the primary's callback installed, one call of the probe's
    [handle_new_latency] invokes the callback exactly once when the window,
    with the new sample stored, is good, and not at all otherwise: neither
    the restart on a bad window nor the reconnect of the primary invokes it
    again. *)
Theorem callback_fires_once_per_good_window :
  forall (outcomes : list conn_result) (res : bool) (w : world),
    occurrences OnGoodLatency
      (trace (H.handle_new_latency probe_callback outcomes res w))
    = (occurrences OnGoodLatency (trace w)
       + (if H.is_window_good (H.record_sample res w) then 1 else 0))%nat.
Proof.
  intros outcomes res w. unfold H.handle_new_latency, H.evaluate_window.
  set (w1 := H.record_sample res w).
  assert (Hw1 : trace w1 = trace w) by reflexivity.
  destruct (Window.len (HC.bandwidth_window (probe w1)) =? HC.window_sz (probe w1)) eqn:Efull.
  - destruct (H.is_window_good w1).
    + unfold H.handle_good_window, probe_callback, P.on_detect_good_latency.
      rewrite primary_connect_quiet. unfold H.terminate.
      destruct (probe_cleanup_shape
                  (on_probe (HC.set_attempt_retry false)
                     (P.refresh_state (emit OnGoodLatency w1))))
        as (pt & lt & steps & _ & _ & Htr & _ & _ & _ & _ & Hgood).
      rewrite Htr. cbn [trace on_probe on_primary P.refresh_state emit].
      rewrite !occurrences_app, Hgood, Hw1. cbn. lia.
    + unfold H.handle_bad_window. rewrite probe_connect_quiet.
      destruct (probe_cleanup_shape w1)
        as (pt & lt & steps & _ & _ & Htr & _ & _ & _ & _ & Hgood).
      unfold H.close.
      destruct (HC.is_connected (probe (H.cleanup_tasks w1)));
        cbn [trace on_probe emit]; rewrite Htr, !occurrences_app, ?Hgood, Hw1; cbn; lia.
  - replace (H.is_window_good w1) with false; [rewrite Hw1; lia|].
    unfold H.is_window_good, Window.is_window_good. rewrite Efull. reflexivity.
Qed.


(** ** Ping errors *)

Lemma ping_loop_disconnected (outcomes : list conn_result) (pings : list probe_result)
      (w : world) :
  WS.is_connected (primary w) = false -> P.ping_loop outcomes pings w = w.
Proof. intros Hc. destruct pings; cbn [P.ping_loop]; rewrite ?Hc; reflexivity. Qed.

(** X18.  Pings that fail with an error other than a timeout leave no
    mark: the ping loop of the primary ends in the same world, trace
    included, as the loop over the same pings with the errors taken out. *)
Theorem ping_errors_leave_no_mark :
  forall (outcomes : list conn_result) (pings : list probe_result) (w : world),
    P.ping_loop outcomes pings w
    = P.ping_loop outcomes
        (filter (fun r => match r with ProbeError => false | _ => true end) pings) w.
Proof.
  intros outcomes pings. induction pings as [|r pings IH]; intros w; [reflexivity|].
  destruct r; cbn [filter P.ping_loop].
  - destruct (WS.is_connected (primary w)); [apply IH|reflexivity].
  - destruct (WS.is_connected (primary w)); [apply IH|reflexivity].
  - destruct (WS.is_connected (primary w)) eqn:Hc.
    + unfold P.ping_pong. rewrite Hc. cbn [negb]. apply IH.
    + symmetry. apply ping_loop_disconnected. exact Hc.
Qed.

(** ** Who touches what *)

Lemma primary_connect_probe (outcomes : list conn_result) :
  forall w, probe (P.connect outcomes w) = probe w.
Proof.
  induction outcomes as [|o later IH]; intros w; [reflexivity|].
  destruct o;
  [reflexivity
  |(rewrite primary_connect_failed by discriminate;
    unfold P.handle_retry_then; cbn [primary emit];
    destruct (WS.is_connected (primary w)); [reflexivity|];
    destruct (WS.retry_connection (primary w) &&
              (WS.retry_attempts (primary w) <? WS.max_retry_attempts (primary w)));
    [|reflexivity];
    rewrite IH; cbn [probe on_primary];
    apply (primary_cleanup_frame (emit (Connect primary_ws) w)))..].
Qed.

Lemma probe_connect_window (outcomes : list conn_result) :
  forall w,
    (HC.bandwidth_window (probe (H.connect outcomes w)) = [] \/
     HC.bandwidth_window (probe (H.connect outcomes w)) = HC.bandwidth_window (probe w)) /\
    HC.window_sz (probe (H.connect outcomes w)) = HC.window_sz (probe w).
Proof.
  induction outcomes as [|o later IH]; intros w; [split; [right|]; reflexivity|].
  destruct o; [split; [left|]; reflexivity|..];
    (match goal with |- context [H.connect (?f :: later) w] =>
       assert (Hf : f <> ConnOk) by discriminate;
       destruct (probe_retry_step f later w Hf) as (Hstep & _) end;
     rewrite Hstep;
     match goal with |- context [H.connect later ?x] => destruct (IH x) as [Hw Hs] end;
     destruct (probe_cleanup_shape
                 (on_probe (HC.set_is_connected false)
                    (emit (Connect healthcheck_ws) (on_probe (HC.set_attempt_retry true) w))))
       as (pt & lt & steps & Hprobe & _);
     cbn [probe on_probe emit] in Hw, Hs; rewrite Hprobe in Hw, Hs;
     cbn [probe on_probe emit HC.bandwidth_window HC.window_sz HC.set_retry_attempts
          HC.set_listen_task HC.set_ping_task HC.set_is_connected HC.set_attempt_retry]
       in Hw, Hs;
     split; [exact Hw|exact Hs]).
Qed.

(** X19.  The length bound is an invariant of both managers under their
    whole sample handlers.  If the primary's window has at most [window_sz]
    entries, it still has after any run of the ping loop, failover
    included.  If the probe's window has at most [window_sz] entries, it
    still has after [handle_new_latency] with the primary's callback,
    whether that only stores the sample, restarts the probe or hands back to
    the primary. *)
Theorem window_bound_is_invariant :
  forall (outcomes : list conn_result) (pings : list probe_result) (res : bool) (w : world),
    (Window.len (WS.bandwidth_window (primary w)) <= WS.window_sz (primary w) ->
       Window.len (WS.bandwidth_window (primary (P.ping_loop outcomes pings w)))
         <= WS.window_sz (primary (P.ping_loop outcomes pings w)) /\
       WS.window_sz (primary (P.ping_loop outcomes pings w)) = WS.window_sz (primary w)) /\
    (Window.len (HC.bandwidth_window (probe w)) <= HC.window_sz (probe w) ->
       Window.len (HC.bandwidth_window
                     (probe (H.handle_new_latency probe_callback outcomes res w)))
         <= HC.window_sz (probe (H.handle_new_latency probe_callback outcomes res w)) /\
       HC.window_sz (probe (H.handle_new_latency probe_callback outcomes res w))
         = HC.window_sz (probe w)).
Proof.
  intros outcomes pings res w. split.
  - revert w. induction pings as [|r pings IH]; intros w Hle; [split; [exact Hle|reflexivity]|].
    cbn [P.ping_loop]. destruct (WS.is_connected (primary w)) eqn:Hc;
      [|split; [exact Hle|reflexivity]].
    assert (Hstep : Window.len (WS.bandwidth_window (primary (P.ping_pong outcomes r w)))
                      <= WS.window_sz (primary w) /\
                    WS.window_sz (primary (P.ping_pong outcomes r w)) = WS.window_sz (primary w)).
    { assert (Hnew : forall b,
        Window.len (WS.bandwidth_window (primary (P.handle_new_latency outcomes b w)))
          <= WS.window_sz (primary w) /\
        WS.window_sz (primary (P.handle_new_latency outcomes b w)) = WS.window_sz (primary w)).
      { intros b. split.
        - rewrite primary_handle_new_latency_window. apply len_record. exact Hle.
        - unfold P.handle_new_latency.
          destruct (P.is_window_bad (P.record_sample b w)); [|reflexivity].
          unfold P.handle_bad_window.
          match goal with |- context [if ?c then _ else _] => destruct c end; [|reflexivity].
          rewrite (proj2 (primary_close_window _ _)). reflexivity. }
      unfold P.ping_pong. rewrite Hc. cbn [negb].
      destruct r; [apply Hnew|apply Hnew|split; [exact Hle|reflexivity]]. }
    destruct Hstep as [Hlen Hsz].
    destruct (IH (P.ping_pong outcomes r w)) as [G1 G2]; [rewrite Hsz; exact Hlen|].
    split; [exact G1|rewrite G2; exact Hsz].
  - intros Hle. unfold H.handle_new_latency, H.evaluate_window.
    set (w1 := H.record_sample res w).
    assert (Hw1 : Window.len (HC.bandwidth_window (probe w1)) <= HC.window_sz (probe w1) /\
                  HC.window_sz (probe w1) = HC.window_sz (probe w)).
    { split; [|reflexivity]. subst w1. unfold H.record_sample.
      cbn [probe on_probe HC.bandwidth_window HC.window_sz HC.set_bandwidth_window].
      apply len_record. exact Hle. }
    destruct Hw1 as [Hlen1 Hsz1].
    destruct (Window.len (HC.bandwidth_window (probe w1)) =? HC.window_sz (probe w1));
      [|split; assumption].
    destruct (H.is_window_good w1).
    + unfold H.handle_good_window, probe_callback, P.on_detect_good_latency.
      rewrite primary_connect_probe. unfold H.terminate.
      destruct (probe_cleanup_shape
                  (on_probe (HC.set_attempt_retry false)
                     (P.refresh_state (emit OnGoodLatency w1))))
        as (pt & lt & steps & Hprobe & _).
      rewrite Hprobe.
      cbn [probe on_probe on_primary emit P.refresh_state HC.bandwidth_window HC.window_sz
           HC.set_listen_task HC.set_ping_task HC.set_attempt_retry].
      split; assumption.
    + unfold H.handle_bad_window.
      set (torn := H.close (H.cleanup_tasks w1)).
      assert (Htorn : HC.bandwidth_window (probe torn) = HC.bandwidth_window (probe w1) /\
                      HC.window_sz (probe torn) = HC.window_sz (probe w1)).
      { subst torn. destruct (probe_cleanup_shape w1) as (pt & lt & steps & Hprobe & _).
        unfold H.close.
        destruct (HC.is_connected (probe (H.cleanup_tasks w1)));
          cbn [probe on_probe emit]; rewrite Hprobe; split; reflexivity. }
      destruct Htorn as [Hwt Hst].
      destruct (probe_connect_window outcomes torn) as [[Hw | Hw] Hs]; rewrite Hw, Hs, Hst.
      * split; [change (Window.len []) with 0; pose proof (len_nonneg
                  (HC.bandwidth_window (probe w1))); lia | exact Hsz1].
      * rewrite Hwt. split; assumption.
Qed.

Lemma window_bound_is_invariant_witness :
  Window.len
    (WS.bandwidth_window
       (primary (P.ping_loop [ConnOk] (repeat ProbeTimeout 12) connected))) <= 10 /\
  Window.len
    (HC.bandwidth_window
       (probe (H.handle_new_latency probe_callback [ConnOk] true probe_nine_bad))) <= 10.
Proof.
  destruct (window_bound_is_invariant [ConnOk] (repeat ProbeTimeout 12) true connected)
    as (Hp & _).
  destruct (window_bound_is_invariant [ConnOk] [] true probe_nine_bad) as (_ & Hh).
  split.
  - apply Hp. intro Hgt. discriminate Hgt.
  - apply Hh. intro Hgt. discriminate Hgt.
Defined.

(** X20.  Each object keeps to itself.  [connect] and [handle_retry] of the
    primary never change the probe; [connect], [terminate] and the probe's
    [handle_new_latency] without a callback never change the primary.  The
    probe is reached from the primary only through [close] and
    [on_detect_good_latency], the primary from the probe only through the
    callback. *)
Theorem objects_keep_to_themselves :
  forall (outcomes : list conn_result) (res : bool) (w : world),
    probe (P.connect outcomes w) = probe w /\
    probe (P.handle_retry outcomes w) = probe w /\
    primary (H.connect outcomes w) = primary w /\
    primary (H.terminate w) = primary w /\
    primary (H.handle_new_latency None outcomes res w) = primary w.
Proof.
  intros outcomes res w.
  split; [apply primary_connect_probe|].
  split.
  { unfold P.handle_retry, P.handle_retry_then.
    destruct (WS.is_connected (primary w)); [reflexivity|].
    destruct (WS.retry_connection (primary w) &&
              (WS.retry_attempts (primary w) <? WS.max_retry_attempts (primary w)));
      [|reflexivity].
    rewrite primary_connect_probe. cbn [probe on_primary].
    apply (primary_cleanup_frame w). }
  split; [apply probe_connect_primary|].
  split; [unfold H.terminate; rewrite probe_cleanup_primary; reflexivity|].
  unfold H.handle_new_latency, H.evaluate_window.
  set (w1 := H.record_sample res w).
  destruct (Window.len (HC.bandwidth_window (probe w1)) =? HC.window_sz (probe w1));
    [|reflexivity].
  destruct (H.is_window_good w1); [reflexivity|].
  unfold H.handle_bad_window. rewrite probe_connect_primary.
  rewrite (proj2 (proj2 (proj2 (probe_close_frame _)))), probe_cleanup_primary. reflexivity.
Qed.
